(** * emh-casa-go: reading normalisation for smart-meter gateways

    A shallow embedding of the vendor clients of the Go module
    [github.com/iseeberg79/emh-casa-go] (packages [smgwreader], [obis],
    [emhcasa], [theben] and [ppc]) and the properties its specification
    states about them.

    Conventions.
    - A Go [string] is a sequence of bytes: [string] of the standard library
      (a list of 8-bit [ascii]).  [len(s)] is [String.length s] and
      [s[i:j]] is [substring i (j - i) s].
    - A Go [int]/[int64] is a [Z]; the functions that can overflow write
      their range checks out.
    - A Go [float64] is a primitive binary64 [float].
    - A Go [map[string]T] is a [gmap string T].
    - A Go function returning [(T, error)] whose caller only looks at the
      value when the error is nil returns a [result T]; where the caller
      reads the value next to a non-nil error the model returns the pair.
    - The network, the clock and the float parsers of Go's library are not
      part of the repository: a client is run against a record of gateway
      responses and a [Runtime] of library operations. *)

From Stdlib Require Import ZArith String Ascii List Lia Bool.
From Stdlib Require Import Floats Uint63.
From Stdlib Require Import DecimalString.
From stdpp Require Import gmap strings.

Set Warnings "-inexact-float".

Open Scope string_scope.
Open Scope Z_scope.

(** ** Errors and results *)

(** The two error causes of package [strconv]. *)
Inductive numErr : Type :=
| ErrSyntax
| ErrRange.

(** Go [error] values, as far as the clients build them. *)
Inductive error : Type :=
| Errorf (msg : string)
    (* fmt.Errorf(msg), the message already formatted *)
| Wrapf (msg : string) (cause : error)
    (* fmt.Errorf(msg + ": %w", cause) *)
| NumError (func num : string) (cause : numErr)
    (* &strconv.NumError{Func, Num, Err} *)
| Transport (msg : string).
    (* an error of the HTTP round trip or of decoding its payload *)

Inductive result (A : Type) : Type :=
| Ok (a : A)
| Err (e : error).

Arguments Ok {A} a.
Arguments Err {A} e.

Definition isOk {A : Type} (r : result A) : bool :=
  match r with
  | Ok _ => true
  | Err _ => false
  end.

Definition isErr {A : Type} (r : result A) : bool := negb (isOk r).

(** ** Bytes *)

Definition byte (c : ascii) : Z := Z.of_N (N_of_ascii c).

Definition isDigit (c : ascii) : bool := (48 <=? byte c) && (byte c <=? 57).

Definition isHexDigit (c : ascii) : bool :=
  isDigit c
  || ((65 <=? byte c) && (byte c <=? 70))
  || ((97 <=? byte c) && (byte c <=? 102)).

(** ** Package [strings] (the functions the clients call) *)

Module strings.

(** [Index(s, string(sep))] for a one-byte separator: the part before the
    first [sep] and the part after it, when [sep] occurs. *)
Fixpoint cut (sep : ascii) (s : string) : option (string * string) :=
  match s with
  | EmptyString => None
  | String c s' =>
      if Ascii.eqb c sep then Some (EmptyString, s')
      else match cut sep s' with
           | Some (a, b) => Some (String c a, b)
           | None => None
           end
  end.

(** [strings.SplitN(s, string(sep), 2)]. *)
Definition SplitN2 (s : string) (sep : ascii) : list string :=
  match cut sep s with
  | Some (a, b) => [a; b]
  | None => [s]
  end.

(** [strings.Split(s, string(sep))]: every part between separators; a
    string without separator (the empty one too) is its only part. *)
Fixpoint Split (s : string) (sep : ascii) : list string :=
  match s with
  | EmptyString => [EmptyString]
  | String c s' =>
      if Ascii.eqb c sep then EmptyString :: Split s' sep
      else match Split s' sep with
           | p :: ps => String c p :: ps
           | [] => [String c EmptyString]
           end
  end.

#[global] Arguments SplitN2 s sep%_char.
#[global] Arguments Split s sep%_char.

(** [strings.HasPrefix(s, p)]. *)
Definition HasPrefix (s p : string) : bool := String.prefix p s.

(** [strings.Contains(s, sub)]. *)
Fixpoint Contains (s sub : string) : bool :=
  String.prefix sub s
  || match s with
     | EmptyString => false
     | String _ s' => Contains s' sub
     end.

(** [strings.ToLower(s)] on a string of ASCII bytes: [A]-[Z] become
    [a]-[z].  (On a string with a byte above 127 Go maps its runes and
    re-encodes them; the result still has a byte above 127, as the one here,
    which leaves such bytes as they are.) *)
Fixpoint ToLower (s : string) : string :=
  match s with
  | EmptyString => EmptyString
  | String c s' =>
      String (if (65 <=? byte c) && (byte c <=? 90)
              then ascii_of_N (Z.to_N (byte c + 32)) else c)
             (ToLower s')
  end.

Definition ofBytes (bs : list Z) : string :=
  string_of_list_ascii (map (fun b => ascii_of_N (Z.to_N b)) bs).

(** The UTF-8 encodings of the runes [unicode.IsSpace] accepts: the six
    ASCII blanks, U+0085, U+00A0, U+1680, U+2000 to U+200A, U+2028, U+2029,
    U+202F, U+205F and U+3000. *)
Definition spaceRunes : list string :=
  map ofBytes
    ([[9]; [10]; [11]; [12]; [13]; [32]; [194; 133]; [194; 160]; [225; 154; 128]]
     ++ map (fun b => [226; 128; b]) [128; 129; 130; 131; 132; 133; 134; 135; 136; 137; 138]
     ++ [[226; 128; 168]; [226; 128; 169]; [226; 128; 175]; [226; 129; 159];
         [227; 128; 128]])%list.

Definition dropRune (runes : list string) (s : string) : option string :=
  match filter (fun r => String.prefix r s) runes with
  | r :: _ => Some (substring (String.length r) (String.length s - String.length r) s)
  | [] => None
  end.

Fixpoint trimLeft (fuel : nat) (runes : list string) (s : string) : string :=
  match fuel with
  | O => s
  | S fuel' =>
      match dropRune runes s with
      | Some s' => trimLeft fuel' runes s'
      | None => s
      end
  end.

Definition reverse (s : string) : string :=
  string_of_list_ascii (rev (list_ascii_of_string s)).

(** [strings.TrimSpace(s)]: the blank runes at both ends removed. *)
Definition TrimSpace (s : string) : string :=
  let l := trimLeft (String.length s) spaceRunes s in
  reverse (trimLeft (String.length l) (map reverse spaceRunes) (reverse l)).

End strings.

(** ** Package [strconv]: integers *)

Module strconv.

(** [lower(c)]: [c | ('x' - 'X')]. *)
Definition lower (c : ascii) : Z := Z.lor (byte c) 32.

(** The digit a byte stands for in [ParseUint]'s loop (bases 2 to 36, where
    an underscore is no digit separator). *)
Definition digitVal (c : ascii) : option Z :=
  if isDigit c then Some (byte c - 48)
  else if (97 <=? lower c) && (lower c <=? 122) then Some (lower c - 97 + 10)
  else None.

Definition maxUint64 : Z := 2 ^ 64 - 1.

(** The loop of [ParseUint(s, base, 64)] over the bytes of [s], [n] the
    number read so far. *)
Fixpoint parseUintLoop (base : Z) (s : string) (n : Z) : Z * option numErr :=
  match s with
  | EmptyString => (n, None)
  | String c s' =>
      match digitVal c with
      | None => (0, Some ErrSyntax)
      | Some d =>
          if base <=? d then (0, Some ErrSyntax)
          else if maxUint64 / base + 1 <=? n then (maxUint64, Some ErrRange)
          else
            let n1 := n * base + d in
            if maxUint64 <? n1 then (maxUint64, Some ErrRange)
            else parseUintLoop base s' n1
      end
  end.

(** [strconv.ParseUint(s, base, 64)] for [2 <= base <= 36]. *)
Definition ParseUint (s : string) (base : Z) : Z * option numErr :=
  match s with
  | EmptyString => (0, Some ErrSyntax)
  | _ => parseUintLoop base s 0
  end.

(** [strconv.ParseInt(s, base, 64)] for [2 <= base <= 36]: an optional
    sign, then [ParseUint]. *)
Definition ParseInt (s : string) (base : Z) : Z * option error :=
  match s with
  | EmptyString => (0, Some (NumError "ParseInt" s ErrSyntax))
  | String c rest =>
      let neg := Ascii.eqb c "-" in
      let s1 := if Ascii.eqb c "+" || Ascii.eqb c "-" then rest else s in
      match ParseUint s1 base with
      | (_, Some ErrSyntax) => (0, Some (NumError "ParseInt" s ErrSyntax))
      | (un, _) =>
          let cutoff := 2 ^ 63 in
          if negb neg && (cutoff <=? un)
          then (cutoff - 1, Some (NumError "ParseInt" s ErrRange))
          else if neg && (cutoff <? un)
          then (- cutoff, Some (NumError "ParseInt" s ErrRange))
          else (if neg then - un else un, None)
      end
  end.

End strconv.

(** ** Package [fmt] *)

Module fmt.

(** The verb [%d] on an integer: decimal digits, a minus sign first when
    the number is negative. *)
Definition d (n : Z) : string := NilZero.string_of_int (Z.to_int n).

End fmt.


(** ** Package [smgwreader]: the vendor-agnostic reading model (types.go) *)

(** [time.Time]: an instant, as seconds since the epoch. *)
Definition Time : Type := Z.

Module smgwreader.

(** [type Unit int] with the DLMS/COSEM unit codes. *)
Definition Unit : Type := Z.
Definition UnitWatt : Unit := 27.
Definition UnitWh : Unit := 30.
Definition UnitAmpere : Unit := 33.
Definition UnitVolt : Unit := 35.
Definition UnitHertz : Unit := 44.

(** [func (u Unit) String() string]. *)
Definition Unit_String (u : Unit) : string :=
  if u =? UnitWatt then "W"
  else if u =? UnitWh then "kWh"
  else if u =? UnitAmpere then "A"
  else if u =? UnitVolt then "V"
  else if u =? UnitHertz then "Hz"
  else "?".

(** [type Quality int]. *)
Definition Quality : Type := Z.
Definition QualityGood : Quality := 0.
Definition QualityStale : Quality := 1.
Definition QualityInvalid : Quality := 2.

(** [Reading] and [Information]; the fields [Unit] and [Quality] of
    [Reading] are [Unit_] and [Quality_] here, next to the types of those
    names. *)
Record Reading : Type := mkReading {
  Value : float;
  Unit_ : Unit;
  Timestamp : Time;
  OBIS : string;
  Quality_ : Quality
}.

Record Information : Type := mkInformation {
  Name : string;
  Model : string;
  Manufacturer : string;
  FirmwareVersion : string;
  LastUpdate : Time;
  Readings : gmap string Reading
}.

(** [func (q Quality) String() string]. *)
Definition Quality_String (q : Quality) : string :=
  if q =? QualityGood then "good"
  else if q =? QualityStale then "stale"
  else if q =? QualityInvalid then "invalid"
  else "unknown".

End smgwreader.

(** ** The library operations a client is run with *)

(** What the clients call in Go's library beyond byte-level string
    functions.  The results about the clients hold for every [Runtime];
    [goruntime.go] below is the instance the examples are evaluated with. *)
Record Runtime : Type := mkRuntime {
  (* strconv.ParseFloat(s, 64): the value and the error, both as returned *)
  ParseFloat : string -> float * option error;
  (* fmt.Sscanf(s, "%f", &v): v when the scan succeeds *)
  Sscanf_f : string -> result float;
  (* math.Pow *)
  Pow : float -> float -> float;
  (* time.Now(): the clock as a call of a client reads it.  The code reads
     it anew for every reading without a time of its own and for
     LastUpdate; the model takes the readings of one call as one instant,
     and two calls each have their own (see [props.atTime]). *)
  Now : Time;
  (* time.Parse(layout, value) *)
  time_Parse : string -> string -> result Time
}.

(** [float64(n)] for an [int] [n]: the nearest binary64. *)
Definition float64_of_int (n : Z) : float :=
  if n =? - 2 ^ 63 then (- ldshiftexp 1 (Uint63.of_Z (63 + 2101)))%float
  else if n <? 0 then (- of_uint63 (Uint63.of_Z (- n)))%float
  else of_uint63 (Uint63.of_Z n).

(** ** A reference [Runtime]

    Go's library on the inputs the examples use.  [ParseFloat] and
    [Sscanf_f] read plain decimal literals (an optional sign, digits with
    an optional fraction, an optional decimal exponent) and round them to
    the nearest binary64, ties to even; the other forms Go accepts
    (hexadecimal mantissas, digit-separating underscores, infinities and
    NaN) are outside this instance, which reports them as syntax errors.
    [Pow] follows [math.Pow] for a positive finite base and an integral
    exponent and is NaN elsewhere. *)

Module goruntime.

(** The leading decimal digits of [s], most significant first, and the rest. *)
Fixpoint readDigits (s : string) : list Z * string :=
  match s with
  | String c s' =>
      if isDigit c
      then let (ds, rest) := readDigits s' in ((byte c - 48) :: ds, rest)
      else ([], s)
  | EmptyString => ([], s)
  end.

Definition digitsValue (ds : list Z) : Z :=
  fold_left (fun n dg => 10 * n + dg) ds 0.

(** The exponent as [readFloat] accumulates it: no further digit counts
    once it has reached 10000. *)
Definition exponentValue (ds : list Z) : Z :=
  fold_left (fun e dg => if e <? 10000 then 10 * e + dg else e) ds 0.

Definition readSign (s : string) : bool * string :=
  match s with
  | String c s' =>
      if Ascii.eqb c "-" then (true, s')
      else if Ascii.eqb c "+" then (false, s')
      else (false, s)
  | EmptyString => (false, s)
  end.

(** A decimal literal as [(negative, mantissa, exponent)], standing for
    [mantissa * 10 ^ exponent], with the text after it. *)
Definition readDecimal (s : string) : option (bool * Z * Z * string) :=
  let (neg, s1) := readSign s in
  let (intDigits, s2) := readDigits s1 in
  let (fracDigits, s3) :=
    match s2 with
    | String "." s2' => readDigits s2'
    | _ => ([], s2)
    end in
  match (intDigits ++ fracDigits)%list with
  | [] => None
  | mant =>
      let dp := - Z.of_nat (List.length fracDigits) in
      let plain := Some (neg, digitsValue mant, dp, s3) in
      match s3 with
      | String c s4 =>
          if Ascii.eqb c "e" || Ascii.eqb c "E"
          then
            let (eneg, s5) := readSign s4 in
            match readDigits s5 with
            | ([], _) => plain
            | (eds, s6) =>
                let e := exponentValue eds in
                Some (neg, digitsValue mant, dp + (if eneg then - e else e), s6)
            end
          else plain
      | EmptyString => plain
      end
  end.

(** The binary64 nearest to [n / d] ([n], [d] positive), ties to even, and
    whether it overflowed to infinity. *)
Definition roundRatio (n d : Z) : float * bool :=
  let e0 := Z.log2 n - Z.log2 d in
  let e := if n * 2 ^ Z.max 0 (- e0) <? d * 2 ^ Z.max 0 e0 then e0 - 1 else e0 in
  let et := Z.max (e - 52) (-1074) in
  let num := n * 2 ^ Z.max 0 (- et) in
  let den := d * 2 ^ Z.max 0 et in
  let q := num / den in
  let r := num mod den in
  let mant := if (den <? 2 * r) || ((2 * r =? den) && Z.odd q) then q + 1 else q in
  if 1024 <=? Z.log2 mant + et then (infinity, true)
  else (ldshiftexp (of_uint63 (Uint63.of_Z mant)) (Uint63.of_Z (et + 2101)), false).

Definition roundDecimal (neg : bool) (mant exp10 : Z) : float * bool :=
  let (f, over) :=
    if mant =? 0 then (0%float, false)
    else if 0 <=? exp10 then roundRatio (mant * 10 ^ exp10) 1
    else roundRatio mant (10 ^ (- exp10)) in
  (if neg then (- f)%float else f, over).

Definition ParseFloat (s : string) : float * option error :=
  match readDecimal s with
  | Some (neg, mant, exp10, EmptyString) =>
      let (f, over) := roundDecimal neg mant exp10 in
      (f, if over then Some (NumError "ParseFloat" s ErrRange) else None)
  | _ => (0%float, Some (NumError "ParseFloat" s ErrSyntax))
  end.

Definition isSpace (c : ascii) : bool :=
  existsb (Z.eqb (byte c)) [9; 10; 11; 12; 13; 32].

Fixpoint skipSpace (s : string) : string :=
  match s with
  | String c s' => if isSpace c then skipSpace s' else s
  | EmptyString => s
  end.

(** [fmt.Sscanf(s, "%f", &v)]: leading blanks are skipped, the longest
    float token is read and converted; what follows it is not looked at. *)
Definition Sscanf_f (s : string) : result float :=
  match skipSpace s with
  | EmptyString => Err (Errorf "unexpected EOF")
  | s1 =>
      match readDecimal s1 with
      | Some (neg, mant, exp10, _) =>
          let (f, over) := roundDecimal neg mant exp10 in
          if over then Err (NumError "ParseFloat" s ErrRange) else Ok f
      | None => Err (NumError "ParseFloat" EmptyString ErrSyntax)
      end
  end.

(** [math.Ldexp]: [frac * 2 ^ e], rounded once. *)
Definition Ldexp (frac : float) (e : Z) : float :=
  ldshiftexp frac (Uint63.of_Z (Z.max 0 (Z.min (e + 2101) 4202))).

(** The loop of [math.Pow] over the bits of the integral exponent [i]:
    [ans = a1 * 2 ^ ae], [x = x1 * 2 ^ xe]. *)
Fixpoint powLoop (fuel : nat) (i : Z) (x1 : float) (xe : Z) (a1 : float) (ae : Z)
  : float * Z :=
  match fuel with
  | O => (a1, ae)
  | S fuel' =>
      if i =? 0 then (a1, ae)
      else if (xe <? - 4096) || (4096 <? xe) then (a1, ae + xe)
      else
        let a1' := if Z.odd i then (a1 * x1)%float else a1 in
        let ae' := if Z.odd i then ae + xe else ae in
        let x2 := (x1 * x1)%float in
        let xe2 := 2 * xe in
        if (x2 <? 0.5)%float
        then powLoop fuel' (Z.shiftr i 1) (x2 + x2)%float (xe2 - 1) a1' ae'
        else powLoop fuel' (Z.shiftr i 1) x2 xe2 a1' ae'
  end.

Definition isIntegral (y : float) : bool :=
  match Prim2SF y with
  | S754_zero _ => true
  | S754_finite _ m e => (0 <=? e) || (Z.pos m mod 2 ^ (- e) =? 0)
  | _ => false
  end.

Definition integralValue (y : float) : Z :=
  match Prim2SF y with
  | S754_finite neg m e =>
      let v := if 0 <=? e then Z.pos m * 2 ^ e else Z.pos m / 2 ^ (- e) in
      if neg then - v else v
  | _ => 0
  end.

Definition Pow (x y : float) : float :=
  if (y =? 0)%float || (x =? 1)%float then 1%float
  else if (y =? 1)%float then x
  else if (0 <? x)%float && (x <? infinity)%float && isIntegral y
          && (Z.abs (integralValue y) <? 2 ^ 63)
  then
    let (x1, xe) := frshiftexp x in
    let (a1, ae) :=
      powLoop 64 (Z.abs (integralValue y)) x1 (Uint63.to_Z xe - 2101) 1%float 0 in
    if (y <? 0)%float then Ldexp (1 / a1)%float (- ae) else Ldexp a1 ae
  else nan.

(** Timestamps are not parsed by this instance. *)
Definition time_Parse (layout value : string) : result Time :=
  Err (Errorf "cannot parse").

Definition go : Runtime :=
  mkRuntime ParseFloat Sscanf_f Pow 1700000000 time_Parse.

End goruntime.

(** ** Package [emhcasa]: the EMH CASA 1.1 client *)

Module emhcasa.

(** types.go *)
Record DerivedContract : Type := mkDerivedContract {
  TafType : string;
  SensorDomains : list string
}.

Record MeterValue : Type := mkMeterValue {
  Value : string;
  Unit : Z;          (* 27 = W, 30 = Wh, 33 = A, 35 = V, 44 = Hz *)
  Scaler : Z;        (* power-of-10 multiplier *)
  LogicalName : string
}.

Record MeterReading : Type := mkMeterReading {
  Values : list MeterValue
}.

(** [convertToOBIS]: the 12 hex digits before the first dot; the bytes at
    digit offsets 4-5, 6-7 and 8-9 are C, D and E. *)
Definition convertToOBIS (logicalName : string) : result string :=
  let hex := hd EmptyString (strings.SplitN2 logicalName ".") in
  if negb (Nat.eqb (String.length hex) 12)
  then Err (Errorf ("unexpected logical name: " ++ logicalName))
  else
    match strconv.ParseInt (substring 4 2 hex) 16 with
    | (_, Some err) => Err err
    | (c, None) =>
        match strconv.ParseInt (substring 6 2 hex) 16 with
        | (_, Some err) => Err err
        | (d, None) =>
            match strconv.ParseInt (substring 8 2 hex) 16 with
            | (_, Some err) => Err err
            | (e, None) => Ok (fmt.d c ++ "." ++ fmt.d d ++ "." ++ fmt.d e)
            end
        end
    end.

(** The part of the client a call reads or writes: its base URI and the
    cached meter identity. *)
Record Client : Type := mkClient {
  uri : string;
  meterID : string
}.

(** What the gateway answers to [getJSONContext], per endpoint. *)
Record Gateway : Type := mkGateway {
  (* GET <uri>/json/metering/derived *)
  derived : result (list string);
  (* GET <uri>/json/metering/derived/<id> *)
  derivedContract : string -> result DerivedContract;
  (* GET <uri>/json/metering/origin/<meterID>/extended *)
  origin : string -> result MeterReading
}.

(** The loop of [discoverMeterIDContext] over the contract ids: the first
    sensor domain of the first contract that can be fetched and has one. *)
Fixpoint scanContracts (g : Gateway) (contracts : list string) : option string :=
  match contracts with
  | [] => None
  | id :: rest =>
      match derivedContract g id with
      | Err _ => scanContracts g rest
      | Ok contract =>
          match SensorDomains contract with
          | sd :: _ => Some sd
          | [] => scanContracts g rest
          end
      end
  end.

(** [discoverMeterIDContext]: the client afterwards and the error. *)
Definition discoverMeterIDContext (c : Client) (g : Gateway) : Client * option error :=
  match derived g with
  | Err err => (c, Some (Wrapf "failed to get contracts" err))
  | Ok contracts =>
      match scanContracts g contracts with
      | Some sd => ({| uri := uri c; meterID := sd |}, None)
      | None => (c, Some (Errorf "no contract with sensor domains found"))
      end
  end.

(** [DiscoverMeterID]. *)
Definition DiscoverMeterID (c : Client) (g : Gateway) : Client * result string :=
  match discoverMeterIDContext c g with
  | (c', Some err) => (c', Err err)
  | (c', None) => (c', Ok (meterID c'))
  end.

(** [SetMeterID]. *)
Definition SetMeterID (c : Client) (id : string) : Client :=
  {| uri := uri c; meterID := id |}.

(** [MeterID]: discovery errors are dropped. *)
Definition MeterID (c : Client) (g : Gateway) : Client * string :=
  let c' := if String.eqb (meterID c) EmptyString
            then fst (discoverMeterIDContext c g) else c in
  (c', meterID c').

Section WithRuntime.

Variable rt : Runtime.

(** [convertReading]. *)
Definition convertReading (item : MeterValue) (obis : string) : smgwreader.Reading :=
  let raw := fst (ParseFloat rt (Value item)) in
  let val := (raw * Pow rt 10 (float64_of_int (Scaler item)))%float in
  let '(val, unit) :=
    if Unit item =? 27 then (val, smgwreader.UnitWatt)
    else if Unit item =? 30 then ((val / 1000)%float, smgwreader.UnitWh)
    else if Unit item =? 33 then (val, smgwreader.UnitAmpere)
    else if Unit item =? 35 then (val, smgwreader.UnitVolt)
    else if Unit item =? 44 then (val, smgwreader.UnitHertz)
    else (val, 0) in
  {| smgwreader.Value := val;
     smgwreader.Unit_ := unit;
     smgwreader.Timestamp := Now rt;
     smgwreader.OBIS := obis;
     smgwreader.Quality_ := smgwreader.QualityGood |}.

(** One round of the loop of [GetReadings] over [reading.Values]. *)
Definition addReading (readings : gmap string smgwreader.Reading) (item : MeterValue)
  : gmap string smgwreader.Reading :=
  match convertToOBIS (LogicalName item) with
  | Err _ => readings
  | Ok obis => <[obis := convertReading item obis]> readings
  end.

Definition assemble (values : list MeterValue) : gmap string smgwreader.Reading :=
  fold_left addReading values ∅.

(** [GetReadings]: the client afterwards and the result. *)
Definition GetReadings (c : Client) (g : Gateway) : Client * result smgwreader.Information :=
  let (c1, derr) :=
    if String.eqb (meterID c) EmptyString
    then discoverMeterIDContext c g else (c, None) in
  match derr with
  | Some err => (c1, Err (Wrapf "failed to discover meter ID" err))
  | None =>
      match origin g (meterID c1) with
      | Err err => (c1, Err (Wrapf "failed to get meter values" err))
      | Ok reading =>
          let readings := assemble (Values reading) in
          if Nat.eqb (size readings) 0
          then (c1, Err (Errorf "no valid meter values found"))
          else (c1, Ok {| smgwreader.Name := meterID c1;
                          smgwreader.Model := "EMH CASA 1.1";
                          smgwreader.Manufacturer := "EMH";
                          smgwreader.FirmwareVersion := EmptyString;
                          smgwreader.LastUpdate := Now rt;
                          smgwreader.Readings := readings |})
      end
  end.

(** [GetMeterValues]: the readings' values alone. *)
Definition GetMeterValues (c : Client) (g : Gateway) : Client * result (gmap string float) :=
  match GetReadings c g with
  | (c', Err err) => (c', Err err)
  | (c', Ok info) => (c', Ok (smgwreader.Value <$> smgwreader.Readings info))
  end.

End WithRuntime.

(** [isValidOBIS] of the package's tests: digits and dots alone, exactly
    two dots, none of them first, last or next to another one.  The state
    of its loop is the number of dots seen and whether the last byte was
    one; [i] is the index of the byte and [n] the length. *)
Fixpoint validLoop (s : string) (i n dotCount : nat) (lastWasDot : bool) : bool :=
  match s with
  | EmptyString => Nat.eqb dotCount 2
  | String c s' =>
      if Ascii.eqb c "."
      then
        if lastWasDot || Nat.eqb i 0 || Nat.eqb i (n - 1) then false
        else validLoop s' (S i) n (S dotCount) true
      else if isDigit c then validLoop s' (S i) n dotCount false
      else false
  end.

Definition isValidOBIS (obis : string) : bool :=
  if Nat.ltb (String.length obis) 5 then false
  else validLoop obis 0 (String.length obis) 0 false.

(** [defaultScheme]. *)
Definition defaultScheme (uri scheme : string) : string :=
  if negb (strings.HasPrefix uri "http://") && negb (strings.HasPrefix uri "https://")
  then scheme ++ "://" ++ uri
  else uri.

(** [DiscoverGatewayURI] (discover.go), [mdns] being what the mDNS lookup
    [smgw.Discover()] answers. *)
Definition DiscoverGatewayURI (mdns : result string) : result string :=
  match mdns with
  | Err err => Err (Wrapf "failed to discover gateway" err)
  | Ok host => Ok ("https://" ++ host)
  end.

(** [NewClient]: the gateway is looked up when no URI is given, then the
    credentials are checked and the URI gets a scheme. *)
Definition NewClient (mdns : result string) (uri user password meterID : string)
  : result Client :=
  let located :=
    if String.eqb uri EmptyString
    then match DiscoverGatewayURI mdns with
         | Err err => Err (Wrapf "failed to discover gateway" err)
         | Ok discoveredURI => Ok discoveredURI
         end
    else Ok uri in
  match located with
  | Err err => Err err
  | Ok uri =>
      if String.eqb user EmptyString || String.eqb password EmptyString
      then Err (Errorf "credentials are required")
      else Ok {| uri := defaultScheme uri "https"; meterID := meterID |}
  end.

(** [NewClientDiscover]. *)
Definition NewClientDiscover (mdns : result string) (user password : string)
  : result Client :=
  NewClient mdns EmptyString user password EmptyString.

End emhcasa.

(** ** The EMH CASA client of release 0.1.0

    [GetMeterValues] as it was before [GetReadings] replaced it: the same
    conversion of the logical name, the value dropped when it does not
    parse, and a value stored for the five known unit tags only. *)

Module emhcasa_v01.

Section WithRuntime.

Variable rt : Runtime.

Definition addValue (values : gmap string float) (item : emhcasa.MeterValue)
  : gmap string float :=
  match emhcasa.convertToOBIS (emhcasa.LogicalName item) with
  | Err _ => values
  | Ok obis =>
      match ParseFloat rt (emhcasa.Value item) with
      | (_, Some _) => values
      | (raw, None) =>
          let val := (raw * Pow rt 10 (float64_of_int (emhcasa.Scaler item)))%float in
          let unit := emhcasa.Unit item in
          if unit =? 27 then <[obis := val]> values
          else if unit =? 30 then <[obis := (val / 1000)%float]> values
          else if unit =? 33 then <[obis := val]> values
          else if unit =? 35 then <[obis := val]> values
          else if unit =? 44 then <[obis := val]> values
          else values
      end
  end.

Definition GetMeterValues (c : emhcasa.Client) (g : emhcasa.Gateway)
  : result (gmap string float) :=
  if String.eqb (emhcasa.meterID c) EmptyString then Err (Errorf "meter ID not set")
  else
    match emhcasa.origin g (emhcasa.meterID c) with
    | Err err => Err (Wrapf "failed to get meter values" err)
    | Ok reading =>
        let values := fold_left addValue (emhcasa.Values reading) ∅ in
        if Nat.eqb (size values) 0 then Err (Errorf "no valid meter values found")
        else Ok values
    end.

End WithRuntime.

End emhcasa_v01.

(** ** Package [theben]: the Theben Conexa client *)

Module theben.

Record usagePoint : Type := mkUsagePoint {
  ID : string;
  TafState : string;
  TafNumber : string
}.

Record reading : Type := mkRawReading {
  OBIS : string;
  Value : string;
  CaptureTime : string
}.

Record channel : Type := mkChannel {
  Readings : list reading
}.

Record smgwInfo : Type := mkSmgwInfo {
  FirmwareVersion : string;
  Manufacturer : string;
  Model : string
}.

Record Client : Type := mkClient {
  baseURL : string;
  meterID : string
}.

(** What the gateway answers to [doJSONRequest], per method. *)
Record Gateway : Type := mkGateway {
  smgw_info : result smgwInfo;            (* method "smgw-info" *)
  user_info : result (list usagePoint);   (* method "user-info" *)
  readings : result (list channel)        (* method "readings" *)
}.

(** The table of [convertOBIS], in the order it is written. *)
Definition mappings : list (string * string) :=
  [ ("0100010800ff", "1-0:1.8.0");
    ("0100020800ff", "1-0:2.8.0");
    ("0100100700ff", "1-0:16.7.0");
    ("01001f0700ff", "1-0:31.7.0");
    ("0100200700ff", "1-0:32.7.0");
    ("0100240700ff", "1-0:36.7.0");
    ("0100330700ff", "1-0:51.7.0");
    ("0100340700ff", "1-0:52.7.0");
    ("0100380700ff", "1-0:56.7.0");
    ("0100470700ff", "1-0:71.7.0");
    ("0100480700ff", "1-0:72.7.0");
    ("01004c0700ff", "1-0:76.7.0");
    ("01000e0700ff", "1-0:14.7.0") ].

(** [convertOBIS]: the empty string for a code the table does not have. *)
Definition convertOBIS (hexOBIS : string) : string :=
  let hexOBIS := strings.ToLower (strings.TrimSpace hexOBIS) in
  match (list_to_map mappings : gmap string string) !! hexOBIS with
  | Some standard => standard
  | None => EmptyString
  end.

(** [determineUnit]. *)
Definition determineUnit (obis : string) : smgwreader.Unit :=
  match strings.Split obis ":" with
  | _ :: obisCode :: _ =>
      match strings.Split obisCode "." with
      | c :: d :: _ =>
          if String.eqb d "8" then smgwreader.UnitWh
          else if String.eqb d "7" then
            if String.eqb c "16" || String.eqb c "36" || String.eqb c "56" || String.eqb c "76"
            then smgwreader.UnitWatt
            else if String.eqb c "31" || String.eqb c "51" || String.eqb c "71"
            then smgwreader.UnitAmpere
            else if String.eqb c "32" || String.eqb c "52" || String.eqb c "72"
            then smgwreader.UnitVolt
            else if String.eqb c "14" then smgwreader.UnitHertz
            else smgwreader.UnitWatt
          else smgwreader.UnitWatt
      | _ => smgwreader.UnitWatt
      end
  | _ => smgwreader.UnitWatt
  end.

(** The scan of [getUsagePointID] for a running TAF-7 usage point. *)
Definition preferred (up : usagePoint) : bool :=
  String.eqb (TafState up) "running" && String.eqb (TafNumber up) "7".

(** [getUsagePointID], after the request: the first preferred usage point,
    else the first one. *)
Definition selectUsagePoint (usagePoints : list usagePoint) : result string :=
  match find preferred usagePoints with
  | Some up => Ok (ID up)
  | None =>
      match usagePoints with
      | up :: _ => Ok (ID up)
      | [] => Err (Errorf "no usage points found")
      end
  end.

Definition getUsagePointID (g : Gateway) : result string :=
  match user_info g with
  | Err err => Err err
  | Ok usagePoints => selectUsagePoint usagePoints
  end.

(** [DiscoverMeterID]. *)
Definition DiscoverMeterID (c : Client) (g : Gateway) : Client * result string :=
  match getUsagePointID g with
  | Err err => (c, Err err)
  | Ok id => ({| baseURL := baseURL c; meterID := id |}, Ok id)
  end.

Section WithRuntime.

Variable rt : Runtime.

(** [parseValue]. *)
Definition parseValue (valueStr obis : string) : result float :=
  match Sscanf_f rt valueStr with
  | Err err => Err err
  | Ok value =>
      if strings.Contains obis ".8." then Ok (value / 1000)%float
      else Ok (value / 10000)%float
  end.

(** One round of the inner loop of [getReadings]. *)
Definition addReading (acc : gmap string smgwreader.Reading) (r : reading)
  : gmap string smgwreader.Reading :=
  let obis := convertOBIS (OBIS r) in
  if String.eqb obis EmptyString then acc
  else
    match parseValue (Value r) obis with
    | Err _ => acc
    | Ok value =>
        let ts :=
          if String.eqb (CaptureTime r) EmptyString then Now rt
          else match time_Parse rt "2006-01-02T15:04:05Z07:00" (CaptureTime r) with
               | Ok parsed => parsed
               | Err _ => Now rt
               end in
        <[obis := {| smgwreader.Value := value;
                     smgwreader.Unit_ := determineUnit obis;
                     smgwreader.Timestamp := ts;
                     smgwreader.OBIS := obis;
                     smgwreader.Quality_ := smgwreader.QualityGood |}]> acc
    end.

Definition assemble (channels : list channel) : gmap string smgwreader.Reading :=
  fold_left (fun acc ch => fold_left addReading (Readings ch) acc) channels ∅.

(** [getReadings]. *)
Definition getReadings (g : Gateway) (usagePointID : string)
  : result (gmap string smgwreader.Reading) :=
  match readings g with
  | Err err => Err err
  | Ok channels => Ok (assemble channels)
  end.

(** [GetReadings]. *)
Definition GetReadings (c : Client) (g : Gateway) : Client * result smgwreader.Information :=
  match smgw_info g with
  | Err err => (c, Err (Wrapf "failed to get SMGW info" err))
  | Ok info =>
      let step2 :=
        if String.eqb (meterID c) EmptyString
        then match getUsagePointID g with
             | Err err => Err (Wrapf "failed to get usage point" err)
             | Ok id => Ok {| baseURL := baseURL c; meterID := id |}
             end
        else Ok c in
      match step2 with
      | Err err => (c, Err err)
      | Ok c1 =>
          match getReadings g (meterID c1) with
          | Err err => (c1, Err (Wrapf "failed to get readings" err))
          | Ok rs =>
              (c1, Ok {| smgwreader.Name := meterID c1;
                         smgwreader.Model := Model info;
                         smgwreader.Manufacturer := Manufacturer info;
                         smgwreader.FirmwareVersion := FirmwareVersion info;
                         smgwreader.LastUpdate := Now rt;
                         smgwreader.Readings := rs |})
          end
      end
  end.

End WithRuntime.

(** [NewClient]; the credentials go to the transport. *)
Definition NewClient (baseURL username password : string) : result Client :=
  if String.eqb username EmptyString || String.eqb password EmptyString
  then Err (Errorf "credentials are required")
  else if String.eqb baseURL EmptyString
  then Err (Errorf "base URL is required")
  else
    let baseURL :=
      if negb (strings.HasPrefix baseURL "http://")
         && negb (strings.HasPrefix baseURL "https://")
      then "https://" ++ baseURL else baseURL in
    Ok {| baseURL := baseURL; meterID := EmptyString |}.

(** [SetMeterID]. *)
Definition SetMeterID (c : Client) (id : string) : Client :=
  {| baseURL := baseURL c; meterID := id |}.

(** [MeterID]: discovery errors are dropped. *)
Definition MeterID (c : Client) (g : Gateway) : Client * string :=
  let c' := if String.eqb (meterID c) EmptyString
            then fst (DiscoverMeterID c g) else c in
  (c', meterID c').

End theben.

(** ** Package [ppc]: the PPC client *)

Module ppc.

(** [html.NodeType]. *)
Inductive NodeType : Type :=
| ErrorNode
| TextNode
| DocumentNode
| ElementNode
| CommentNode
| DoctypeNode.

Definition isElement (t : NodeType) : bool :=
  match t with
  | ElementNode => true
  | _ => false
  end.

Definition isText (t : NodeType) : bool :=
  match t with
  | TextNode => true
  | _ => false
  end.

(** [html.Attribute]. *)
Record Attribute : Type := mkAttribute {
  Key : string;
  Val : string
}.

(** [html.Node]: the children stand for the chain from [FirstChild] along
    [NextSibling]. *)
#[warnings="-register-all"]
Inductive Node : Type :=
| mkNode (type : NodeType) (data : string) (attr : list Attribute) (children : list Node).

Definition Type_ (n : Node) : NodeType := let 'mkNode t _ _ _ := n in t.
Definition Data (n : Node) : string := let 'mkNode _ d _ _ := n in d.
Definition Attr (n : Node) : list Attribute := let 'mkNode _ _ a _ := n in a.
Definition Children (n : Node) : list Node := let 'mkNode _ _ _ c := n in c.

Record Client : Type := mkClient {
  baseURL : string;
  meterID : string
}.

(** The parsed page the gateway answers with, per form action; an error
    stands for a failed request, a status other than 200 or a page that
    does not parse. *)
Record Gateway : Type := mkGateway {
  meterform : result Node;                    (* action=meterform *)
  showMeterProfile : string -> result Node    (* action=showMeterProfile&meter_id=<id> *)
}.

(** The loop of [extractMeterID] over the attributes of an [input]. *)
Definition scanAttrs (attrs : list Attribute) : string * string :=
  fold_left
    (fun '(name, value) a =>
       let name := if String.eqb (Key a) "name" && strings.Contains (Val a) "meter"
                   then Val a else name in
       let value := if String.eqb (Key a) "value" then Val a else value in
       (name, value))
    attrs (EmptyString, EmptyString).

(** [extractMeterID]. *)
Fixpoint extractMeterID (n : Node) : string :=
  let 'mkNode t d attrs children := n in
  let own :=
    if isElement t && String.eqb d "input"
    then let '(name, value) := scanAttrs attrs in
         if negb (String.eqb name EmptyString) && negb (String.eqb value EmptyString)
         then value else EmptyString
    else EmptyString in
  if negb (String.eqb own EmptyString) then own
  else
    (fix firstOf (cs : list Node) : string :=
       match cs with
       | [] => EmptyString
       | child :: cs' =>
           let r := extractMeterID child in
           if negb (String.eqb r EmptyString) then r else firstOf cs'
       end) children.

(** [getMeterID]. *)
Definition getMeterID (g : Gateway) : result string :=
  match meterform g with
  | Err err => Err err
  | Ok doc =>
      let id := extractMeterID doc in
      if String.eqb id EmptyString then Err (Errorf "meter ID not found in response")
      else Ok id
  end.

(** [DiscoverMeterID]. *)
Definition DiscoverMeterID (c : Client) (g : Gateway) : Client * result string :=
  match getMeterID g with
  | Err err => (c, Err err)
  | Ok id => ({| baseURL := baseURL c; meterID := id |}, Ok id)
  end.

(** [findElementByID]: [None] for [nil]. *)
Fixpoint findElementByID (n : Node) (id : string) : option Node :=
  let 'mkNode t _ attrs children := n in
  if isElement t
     && existsb (fun a => String.eqb (Key a) "id" && String.eqb (Val a) id) attrs
  then Some n
  else
    (fix firstOf (cs : list Node) : option Node :=
       match cs with
       | [] => None
       | child :: cs' =>
           match findElementByID child id with
           | Some r => Some r
           | None => firstOf cs'
           end
       end) children.

(** [extractText]. *)
Fixpoint extractText (n : Node) : string :=
  let 'mkNode t d _ children := n in
  if isText t then strings.TrimSpace d
  else
    strings.TrimSpace
      ((fix texts (cs : list Node) (text : string) : string :=
          match cs with
          | [] => text
          | child :: cs' => texts cs' (text ++ extractText child)
          end) children EmptyString).

(** [extractCellByID]. *)
Definition extractCellByID (row : Node) (id : string) : string :=
  match findElementByID row id with
  | None => EmptyString
  | Some cell => extractText cell
  end.

(** [determineUnit]. *)
Definition determineUnit (obis : string) : smgwreader.Unit :=
  match strings.Split obis "." with
  | p0 :: p1 :: _ =>
      if String.eqb p1 "8" then smgwreader.UnitWh
      else if String.eqb p1 "7" then
        if String.eqb p0 "16" || String.eqb p0 "36" || String.eqb p0 "56" || String.eqb p0 "76"
        then smgwreader.UnitWatt
        else if String.eqb p0 "31" || String.eqb p0 "51" || String.eqb p0 "71"
        then smgwreader.UnitAmpere
        else if String.eqb p0 "32" || String.eqb p0 "52" || String.eqb p0 "72"
        then smgwreader.UnitVolt
        else if String.eqb p0 "14" then smgwreader.UnitHertz
        else smgwreader.UnitWatt
      else smgwreader.UnitWatt
  | _ => smgwreader.UnitWatt
  end.

Section WithRuntime.

Variable rt : Runtime.

(** What a table row contributes in [extractRow]: [None] when the row has
    a code and a value and the value does not parse (the closure returns
    there), the readings otherwise. *)
Definition rowReading (n : Node) (acc : gmap string smgwreader.Reading)
  : option (gmap string smgwreader.Reading) :=
  let obis := extractCellByID n "table_metervalues_col_obis" in
  let value := extractCellByID n "table_metervalues_col_wert" in
  let timestamp := extractCellByID n "table_metervalues_col_timestamp" in
  if negb (String.eqb obis EmptyString) && negb (String.eqb value EmptyString)
  then
    match ParseFloat rt value with
    | (_, Some _) => None
    | (val, None) =>
        let ts :=
          if String.eqb timestamp EmptyString then Now rt
          else match time_Parse rt "2006-01-02 15:04:05" timestamp with
               | Ok parsed => parsed
               | Err _ => Now rt
               end in
        Some (<[obis := {| smgwreader.Value := val;
                           smgwreader.Unit_ := determineUnit obis;
                           smgwreader.Timestamp := ts;
                           smgwreader.OBIS := obis;
                           smgwreader.Quality_ := smgwreader.QualityGood |}]> acc)
    end
  else Some acc.

(** The closure [extractRow] of [extractTableRows], the map it writes to
    passed through. *)
Fixpoint extractRow (n : Node) (acc : gmap string smgwreader.Reading)
  : gmap string smgwreader.Reading :=
  let 'mkNode t d _ children := n in
  let visit :=
    (fix rows (cs : list Node) (acc : gmap string smgwreader.Reading) :=
       match cs with
       | [] => acc
       | child :: cs' => rows cs' (extractRow child acc)
       end) children in
  if isElement t && String.eqb d "tr"
  then match rowReading n acc with
       | None => acc
       | Some acc' => visit acc'
       end
  else visit acc.

(** [extractReadings]. *)
Definition extractReadings (doc : Node) : gmap string smgwreader.Reading :=
  match findElementByID doc "metervalue" with
  | None => ∅
  | Some table => extractRow table ∅
  end.

(** [getMeterProfile]. *)
Definition getMeterProfile (g : Gateway) (id : string)
  : result (gmap string smgwreader.Reading) :=
  match showMeterProfile g id with
  | Err err => Err err
  | Ok doc =>
      let rs := extractReadings doc in
      if Nat.eqb (size rs) 0 then Err (Errorf "no readings found") else Ok rs
  end.

(** [GetReadings]. *)
Definition GetReadings (c : Client) (g : Gateway) : Client * result smgwreader.Information :=
  let step1 :=
    if String.eqb (meterID c) EmptyString
    then match getMeterID g with
         | Err err => Err (Wrapf "failed to get meter ID" err)
         | Ok id => Ok {| baseURL := baseURL c; meterID := id |}
         end
    else Ok c in
  match step1 with
  | Err err => (c, Err err)
  | Ok c1 =>
      match getMeterProfile g (meterID c1) with
      | Err err => (c1, Err (Wrapf "failed to get meter profile" err))
      | Ok rs =>
          (c1, Ok {| smgwreader.Name := meterID c1;
                     smgwreader.Model := "PPC SMGW";
                     smgwreader.Manufacturer := "PPC";
                     smgwreader.FirmwareVersion := EmptyString;
                     smgwreader.LastUpdate := Now rt;
                     smgwreader.Readings := rs |})
      end
  end.

End WithRuntime.

(** [NewClient]; the credentials go to the transport. *)
Definition NewClient (baseURL username password : string) : result Client :=
  if String.eqb username EmptyString || String.eqb password EmptyString
  then Err (Errorf "credentials are required")
  else if String.eqb baseURL EmptyString
  then Err (Errorf "base URL is required")
  else
    let baseURL :=
      if negb (strings.HasPrefix baseURL "http://")
         && negb (strings.HasPrefix baseURL "https://")
      then "https://" ++ baseURL else baseURL in
    Ok {| baseURL := baseURL; meterID := EmptyString |}.

(** [SetMeterID]. *)
Definition SetMeterID (c : Client) (id : string) : Client :=
  {| baseURL := baseURL c; meterID := id |}.

(** [MeterID]: discovery errors are dropped. *)
Definition MeterID (c : Client) (g : Gateway) : Client * string :=
  let c' := if String.eqb (meterID c) EmptyString
            then fst (DiscoverMeterID c g) else c in
  (c', meterID c').

End ppc.

(** ** Package [obis]: the code registry (registry.go) *)

Module obis.

Definition EnergyImport : string := "1.8.0".
Definition EnergyExport : string := "2.8.0".
Definition PowerActive : string := "16.7.0".
Definition PowerL1 : string := "36.7.0".
Definition PowerL2 : string := "56.7.0".
Definition PowerL3 : string := "76.7.0".
Definition CurrentL1 : string := "31.7.0".
Definition CurrentL2 : string := "51.7.0".
Definition CurrentL3 : string := "71.7.0".
Definition VoltageL1 : string := "32.7.0".
Definition VoltageL2 : string := "52.7.0".
Definition VoltageL3 : string := "72.7.0".
Definition Frequency : string := "14.7.0".

(** The map literal of [Description], in the order it is written. *)
Definition descriptions : list (string * string) :=
  [ (EnergyImport, "Total imported energy (kWh)");
    (EnergyExport, "Total exported energy (kWh)");
    (PowerActive, "Current active power (W)");
    (PowerL1, "Phase 1 active power (W)");
    (PowerL2, "Phase 2 active power (W)");
    (PowerL3, "Phase 3 active power (W)");
    (CurrentL1, "Phase 1 current (A)");
    (CurrentL2, "Phase 2 current (A)");
    (CurrentL3, "Phase 3 current (A)");
    (VoltageL1, "Phase 1 voltage (V)");
    (VoltageL2, "Phase 2 voltage (V)");
    (VoltageL3, "Phase 3 voltage (V)");
    (Frequency, "Grid frequency (Hz)") ].

(** [Description]. *)
Definition Description (code : string) : string :=
  match (list_to_map descriptions : gmap string string) !! code with
  | Some desc => desc
  | None => "Unknown OBIS code: " ++ code
  end.

End obis.

(** ** The specification's vocabulary *)

Module spec.

(** No byte of [s] is a dot. *)
Fixpoint noDot (s : string) : bool :=
  match s with
  | EmptyString => true
  | String c s' => negb (Ascii.eqb c ".") && noDot s'
  end.

Fixpoint allDigits (s : string) : bool :=
  match s with
  | EmptyString => true
  | String c s' => isDigit c && allDigits s'
  end.

(** A non-negative decimal integer: one digit or more, nothing else. *)
Definition isNumeral (s : string) : bool :=
  negb (String.eqb s EmptyString) && allDigits s.

(** StandardCode: [C.D.E] with C, D and E non-negative decimal integers,
    exactly two dots, no empty segment. *)
Definition isStandardCode (s : string) : bool :=
  match strings.Split s "." with
  | [c; d; e] => isNumeral c && isNumeral d && isNumeral e
  | _ => false
  end.

Fixpoint numeralValue (s : string) (n : Z) : Z :=
  match s with
  | EmptyString => n
  | String c s' => numeralValue s' (10 * n + (byte c - 48))
  end.

(** The canonical decimal rendering of an integer from 0 to 255: digits
    alone, no leading zero. *)
Definition isByteNumeral (s : string) : bool :=
  isNumeral s
  && (String.eqb s "0" || negb (String.prefix "0" s))
  && (numeralValue s 0 <=? 255).

(** StandardCode whose three numbers are canonical renderings of bytes. *)
Definition isByteCode (s : string) : bool :=
  match strings.Split s "." with
  | [c; d; e] => isByteNumeral c && isByteNumeral d && isByteNumeral e
  | _ => false
  end.

(** Two hexadecimal digits. *)
Definition isHexPair (s : string) : bool :=
  match s with
  | String a (String b EmptyString) => isHexDigit a && isHexDigit b
  | _ => false
  end.

(** The logical names [convert] is specified on: in the part before the
    first dot, twelve bytes of which those at offsets 4 to 9 are hex
    digits. *)
Definition hexPart (logicalName : string) : string :=
  hd EmptyString (strings.SplitN2 logicalName ".").

Definition pairsAreHex (logicalName : string) : bool :=
  isHexPair (substring 4 2 (hexPart logicalName))
  && isHexPair (substring 6 2 (hexPart logicalName))
  && isHexPair (substring 8 2 (hexPart logicalName)).

(** What [strconv.ParseInt(s, 16, 64)] takes for a two-byte [s]: two hex
    digits, or a sign and one hex digit. *)
Definition isSignedHexPair (s : string) : bool :=
  match s with
  | String a (String b EmptyString) =>
      (isHexDigit a || Ascii.eqb a "+" || Ascii.eqb a "-") && isHexDigit b
  | _ => false
  end.

(** The unit the code-pattern inference assigns to the first two segments
    of a code. *)
Definition unitOfSegments (first second : string) : smgwreader.Unit :=
  if String.eqb second "8" then smgwreader.UnitWh
  else if String.eqb second "7" then
    if existsb (String.eqb first) ["16"; "36"; "56"; "76"] then smgwreader.UnitWatt
    else if existsb (String.eqb first) ["31"; "51"; "71"] then smgwreader.UnitAmpere
    else if existsb (String.eqb first) ["32"; "52"; "72"] then smgwreader.UnitVolt
    else if existsb (String.eqb first) ["14"] then smgwreader.UnitHertz
    else smgwreader.UnitWatt
  else smgwreader.UnitWatt.

(** The text before the first dot of [s] and, when there is a dot, the
    text between it and the next one (or the end). *)
Fixpoint upToDot (s : string) : string :=
  match s with
  | EmptyString => EmptyString
  | String c s' => if Ascii.eqb c "." then EmptyString else String c (upToDot s')
  end.

Fixpoint afterDot (s : string) : option string :=
  match s with
  | EmptyString => None
  | String c s' => if Ascii.eqb c "." then Some s' else afterDot s'
  end.

(** Code-pattern inference as the specification words it. *)
Definition inferUnit (code : string) : smgwreader.Unit :=
  match afterDot code with
  | Some rest => unitOfSegments (upToDot code) (upToDot rest)
  | None => smgwreader.UnitWatt
  end.

(** The preference predicate of the EMH CASA discovery on a contract id:
    the contract can be fetched and lists a sensor domain. *)
Definition hasSensorDomain (g : emhcasa.Gateway) (id : string) : bool :=
  match emhcasa.derivedContract g id with
  | Ok contract => negb (Nat.eqb (List.length (emhcasa.SensorDomains contract)) 0)
  | Err _ => false
  end.

(** No element of [l] satisfies [p]. *)
Definition noneOf {A : Type} (p : A -> bool) (l : list A) : bool :=
  forallb (fun x => negb (p x)) l.

(** [normalize(rawValue, scaleExponent, unit)] as the EMH CASA client
    computes it: the value of the reading [convertReading] builds. *)
Definition normalize (rt : Runtime) (rawValue : string) (scaleExponent : Z)
    (unit : smgwreader.Unit) : float :=
  smgwreader.Value
    (emhcasa.convertReading rt
       (emhcasa.mkMeterValue rawValue unit scaleExponent EmptyString) EmptyString).

End spec.

(** ** Gateways and pages used as examples *)

Module examples.

(** A Theben gateway whose only channel reports a code that is not in the
    client's table (the device identifier, [0100600100ff]). *)
Definition thebenClient : theben.Client :=
  theben.mkClient "https://192.168.1.100" "up-1".

Definition thebenUnknownCode : theben.Gateway :=
  theben.mkGateway
    (Ok (theben.mkSmgwInfo "1.2.3" "Theben" "Conexa 3.0"))
    (Ok [theben.mkUsagePoint "up-1" "running" "7"])
    (Ok [theben.mkChannel [theben.mkRawReading "0100600100ff" "12345" EmptyString]]).

(** The same gateway answering with no channel at all. *)
Definition thebenNoChannel : theben.Gateway :=
  theben.mkGateway
    (Ok (theben.mkSmgwInfo "1.2.3" "Theben" "Conexa 3.0"))
    (Ok [theben.mkUsagePoint "up-1" "running" "7"])
    (Ok []).

(** A Theben gateway reporting the active power. *)
Definition thebenPower : theben.Gateway :=
  theben.mkGateway
    (Ok (theben.mkSmgwInfo "1.2.3" "Theben" "Conexa 3.0"))
    (Ok [theben.mkUsagePoint "up-1" "running" "7"])
    (Ok [theben.mkChannel
           [theben.mkRawReading "0100100700ff" "15000000" EmptyString]]).

(** Usage points A, B and C of which B alone is a running TAF-7 one. *)
Definition upA : theben.usagePoint := theben.mkUsagePoint "A" "stopped" "1".
Definition upB : theben.usagePoint := theben.mkUsagePoint "B" "running" "7".
Definition upC : theben.usagePoint := theben.mkUsagePoint "C" "running" "6".

(** An EMH CASA gateway with three values, the second one not a number. *)
Definition casaClient : emhcasa.Client :=
  emhcasa.mkClient "https://192.168.33.2" "1EMH0012345678".

Definition casaThreeValues : list emhcasa.MeterValue :=
  [ emhcasa.mkMeterValue "2500" 27 0 "0100100700FF";
    emhcasa.mkMeterValue "abc" 30 0 "0100010800FF";
    emhcasa.mkMeterValue "12345" 30 0 "0100020800FF" ].

Definition casaGateway : emhcasa.Gateway :=
  emhcasa.mkGateway
    (Ok ["contract-1"; "contract-2"])
    (fun _ => Ok (emhcasa.mkDerivedContract "TAF-1" []))
    (fun _ => Ok (emhcasa.mkMeterReading casaThreeValues)).

(** An EMH CASA gateway whose only entry has a value that is no number. *)
Definition casaUnparsable : emhcasa.Gateway :=
  emhcasa.mkGateway
    (Ok ["contract-1"])
    (fun _ => Ok (emhcasa.mkDerivedContract "TAF-1" []))
    (fun _ => Ok (emhcasa.mkMeterReading
                    [emhcasa.mkMeterValue "abc" 30 0 "0100010800FF"])).

(** An EMH CASA client without meter identity. *)
Definition casaFresh : emhcasa.Client :=
  emhcasa.mkClient "https://192.168.33.2" EmptyString.

(** A PPC meter-profile page whose table has one row with a code cell
    that is no code at all. *)
Definition ppcCell (id text : string) : ppc.Node :=
  ppc.mkNode ppc.ElementNode "td" [ppc.mkAttribute "id" id]
    [ppc.mkNode ppc.TextNode text [] []].

Definition ppcRow (code value : string) : ppc.Node :=
  ppc.mkNode ppc.ElementNode "tr" []
    [ppcCell "table_metervalues_col_obis" code;
     ppcCell "table_metervalues_col_wert" value].

Definition ppcPage : ppc.Node :=
  ppc.mkNode ppc.DocumentNode EmptyString []
    [ppc.mkNode ppc.ElementNode "html" []
       [ppc.mkNode ppc.ElementNode "head" [] [];
        ppc.mkNode ppc.ElementNode "body" []
          [ppc.mkNode ppc.ElementNode "table" [ppc.mkAttribute "id" "metervalue"]
             [ppc.mkNode ppc.ElementNode "tbody" []
                [ppcRow "Wirkleistung gesamt" "1500"]]]]].

(** An EMH CASA gateway whose second contract has a sensor domain. *)
Definition casaDiscoverable : emhcasa.Gateway :=
  emhcasa.mkGateway
    (Ok ["contract-1"; "contract-2"])
    (fun id => if String.eqb id "contract-2"
               then Ok (emhcasa.mkDerivedContract "TAF-7" ["1EMH0012345678"; "other"])
               else Ok (emhcasa.mkDerivedContract "TAF-1" []))
    (fun _ => Ok (emhcasa.mkMeterReading casaThreeValues)).

(** The same gateway when its listing of contracts cannot be fetched. *)
Definition casaUnlisted : emhcasa.Gateway :=
  emhcasa.mkGateway
    (Err (Transport "request failed"))
    (fun _ => Err (Transport "request failed"))
    (fun _ => Ok (emhcasa.mkMeterReading casaThreeValues)).

End examples.

(** ** Auxiliary definitions and tactics of the proofs *)

Definition allAscii : list ascii := map ascii_of_nat (seq 0 256).

Definition noError {A : Type} (r : A * option error) : bool :=
  match snd r with
  | None => true
  | Some _ => false
  end.

Definition pair (a b : ascii) : string := String a (String b EmptyString).

(** What the loop of [isValidOBIS] still has to see in the rest [s] of a
    code after [dotCount] dots: digits up to the next dot (one at least
    when [mustStart]), then numerals, [2 - dotCount] of them. *)
Definition restOK (dotCount : nat) (mustStart : bool) (s : string) : bool :=
  match strings.Split s "." with
  | p :: ps =>
      spec.allDigits p
      && (negb mustStart || negb (String.eqb p EmptyString))
      && forallb spec.isNumeral ps
      && Nat.eqb (dotCount + List.length ps) 2
  | [] => false
  end.

(** ** Vocabulary of the further properties *)

Module props.

(** The entry's logical name converts to the code [k]. *)
Definition convertsTo (k : string) (item : emhcasa.MeterValue) : bool :=
  match emhcasa.convertToOBIS (emhcasa.LogicalName item) with
  | Ok code => String.eqb code k
  | Err _ => false
  end.

(** The last element of [l] that satisfies [p]. *)
Definition findLast {A : Type} (p : A -> bool) (l : list A) : option A :=
  find p (rev l).

(** One of the five unit tags the clients know. *)
Definition knownUnit (u : Z) : bool :=
  existsb (Z.eqb u) [27; 30; 33; 35; 44].

(** An entry the two releases of the EMH CASA client treat alike: its
    name does not convert, or its value parses and its unit tag is known. *)
Definition treatedAlike (rt : Runtime) (item : emhcasa.MeterValue) : bool :=
  match emhcasa.convertToOBIS (emhcasa.LogicalName item) with
  | Err _ => true
  | Ok _ => noError (ParseFloat rt (emhcasa.Value item))
            && knownUnit (emhcasa.Unit item)
  end.

(** The byte [n] as two upper-case hex digits. *)
Definition hexDigitOf (n : Z) : ascii :=
  ascii_of_N (Z.to_N (if n <? 10 then 48 + n else 55 + n)).

Definition hex2 (n : Z) : string :=
  String (hexDigitOf (n / 16)) (String (hexDigitOf (n mod 16)) EmptyString).

(** The entry's logical name converts to some code. *)
Definition converts (item : emhcasa.MeterValue) : bool :=
  isOk (emhcasa.convertToOBIS (emhcasa.LogicalName item)).

(** An entry release 0.1.0 stores: its name converts, its value parses
    and its unit tag is known. *)
Definition storable (rt : Runtime) (item : emhcasa.MeterValue) : bool :=
  converts item
  && noError (ParseFloat rt (emhcasa.Value item))
  && knownUnit (emhcasa.Unit item).

(** The URI starts with one of the two schemes. *)
Definition hasScheme (uri : string) : bool :=
  strings.HasPrefix uri "http://" || strings.HasPrefix uri "https://".






(** No byte of [s] is [sep]. *)
Fixpoint noByte (sep : ascii) (s : string) : bool :=
  match s with
  | EmptyString => true
  | String c s' => negb (Ascii.eqb c sep) && noByte sep s'
  end.

(** [s] ends with [suffix]. *)
Definition hasSuffix (s suffix : string) : bool :=
  String.prefix (strings.reverse suffix) (strings.reverse s).

(** The nodes of a page in document order: a node, then its children's
    nodes, child by child. *)
Fixpoint preorder (n : ppc.Node) : list ppc.Node :=
  let 'ppc.mkNode _ _ _ children := n in
  n :: (fix all (cs : list ppc.Node) : list ppc.Node :=
          match cs with
          | [] => []
          | child :: cs' => (preorder child ++ all cs')%list
          end) children.

(** The node is an element whose [id] attribute is [id]. *)
Definition hasID (id : string) (n : ppc.Node) : bool :=
  ppc.isElement (ppc.Type_ n)
  && existsb (fun a => String.eqb (ppc.Key a) "id" && String.eqb (ppc.Val a) id)
       (ppc.Attr n).



(** The raw readings of all channels, in order. *)
Definition allReadings (channels : list theben.channel) : list theben.reading :=
  concat (map theben.Readings channels).

(** The reading [r] is what the table row [row] of a PPC page gives for
    the key [k]: the row's code cell holds [k], its value cell parses to
    the reading's value, and the reading carries the key, quality good and
    the unit inferred from the key. *)
Definition storedFromRow (rt : Runtime) (row : ppc.Node) (k : string)
    (r : smgwreader.Reading) : Prop :=
  ppc.isElement (ppc.Type_ row) = true
  /\ ppc.Data row = "tr"
  /\ ppc.extractCellByID row "table_metervalues_col_obis" = k
  /\ String.eqb k EmptyString = false
  /\ ParseFloat rt (ppc.extractCellByID row "table_metervalues_col_wert")
     = (smgwreader.Value r, None)
  /\ smgwreader.OBIS r = k
  /\ smgwreader.Quality_ r = smgwreader.QualityGood
  /\ smgwreader.Unit_ r = ppc.determineUnit k.

End props.

(** Case analysis on every condition of the goal. *)
Ltac case_ifs :=
  repeat match goal with
         | |- context [if ?b then _ else _] => destruct b
         end.

(** * Part II: properties *)

(** ** Bytes and strings *)

Lemma allAscii_complete (a : ascii) : In a allAscii.
Proof.
  unfold allAscii. rewrite <- (ascii_nat_embedding a).
  apply in_map, in_seq. pose proof (nat_ascii_bounded a). lia.
Qed.

Lemma forall_ascii (P : ascii -> bool) :
  forallb P allAscii = true -> forall a, P a = true.
Proof.
  intros H a. rewrite forallb_forall in H. apply H, allAscii_complete.
Qed.

Lemma forall_ascii2 (P : ascii -> ascii -> bool) :
  forallb (fun a => forallb (P a) allAscii) allAscii = true ->
  forall a b, P a b = true.
Proof.
  intros H a b.
  apply (forall_ascii (P a)), (forall_ascii (fun a => forallb (P a) allAscii) H).
Qed.

Lemma cut_nodot (a : string) :
  spec.noDot a = true -> strings.cut "." a = None.
Proof.
  induction a as [|c a IH]; simpl; [reflexivity|].
  destruct (Ascii.eqb c "."); simpl; [discriminate|].
  intros H. now rewrite IH.
Qed.

Lemma cut_app_nodot (a b : string) :
  spec.noDot a = true -> strings.cut "." (a ++ String "." b) = Some (a, b).
Proof.
  induction a as [|c a IH]; simpl; [reflexivity|].
  destruct (Ascii.eqb c "."); simpl; [discriminate|].
  intros H. now rewrite IH.
Qed.

Lemma Split_nonempty (s : string) : strings.Split s "." <> [].
Proof.
  destruct s as [|c s]; simpl; [discriminate|].
  destruct (Ascii.eqb c "."); [discriminate|].
  destruct (strings.Split s "."); discriminate.
Qed.

Lemma Split_nodot (a : string) :
  spec.noDot a = true -> strings.Split a "." = [a].
Proof.
  induction a as [|c a IH]; simpl; [reflexivity|].
  destruct (Ascii.eqb c "."); simpl; [discriminate|].
  intros H. now rewrite IH.
Qed.

Lemma Split_app_nodot (a b : string) :
  spec.noDot a = true ->
  strings.Split (a ++ String "." b) "." = a :: strings.Split b ".".
Proof.
  induction a as [|c a IH]; simpl; [reflexivity|].
  destruct (Ascii.eqb c "."); simpl; [discriminate|].
  intros H. now rewrite IH.
Qed.

(** [Split] does split on the dots: no part has one, and the parts joined
    by dots are the string again. *)
Lemma Split_parts_nodot (s : string) :
  forallb spec.noDot (strings.Split s ".") = true.
Proof.
  induction s as [|c s IH]; simpl; [reflexivity|].
  destruct (Ascii.eqb c ".") eqn:E; simpl; [exact IH|].
  destruct (strings.Split s ".") as [|p ps]; simpl in *.
  - now rewrite E.
  - rewrite E. exact IH.
Qed.

Lemma Split_join (s : string) :
  String.concat "." (strings.Split s ".") = s.
Proof.
  induction s as [|c s IH]; simpl; [reflexivity|].
  destruct (Ascii.eqb c ".") eqn:E.
  - apply Ascii.eqb_eq in E. subst c.
    pose proof (Split_nonempty s) as Hne.
    destruct (strings.Split s ".") as [|p ps]; [contradiction|].
    simpl in *. now rewrite IH.
  - pose proof (Split_nonempty s) as Hne.
    destruct (strings.Split s ".") as [|p ps]; [contradiction|].
    simpl in *. destruct ps; simpl in *; now rewrite <- IH.
Qed.

Lemma length12_inv (s : string) :
  String.length s = 12%nat ->
  exists c0 c1 c2 c3 c4 c5 c6 c7 c8 c9 c10 c11,
    s = String c0 (String c1 (String c2 (String c3 (pair c4 c5
          ++ pair c6 c7 ++ pair c8 c9 ++ pair c10 c11)))).
Proof.
  intros H.
  do 12 (destruct s as [|? s]; [discriminate H|]).
  destruct s; [|discriminate H].
  repeat eexists.
Qed.

(** ** [strconv.ParseInt] on two bytes *)

Lemma ParseInt_pair_noError (a b : ascii) :
  noError (strconv.ParseInt (pair a b) 16) = spec.isSignedHexPair (pair a b).
Proof.
  apply Bool.eqb_prop.
  revert a b. apply forall_ascii2. vm_compute. reflexivity.
Qed.

Lemma ParseInt_hexPair (a b : ascii) :
  spec.isHexPair (pair a b) = true ->
  exists v, strconv.ParseInt (pair a b) 16 = (v, None) /\ 0 <= v <= 255.
Proof.
  intros H.
  assert (G : (negb (spec.isHexPair (pair a b))
               || (noError (strconv.ParseInt (pair a b) 16)
                   && (0 <=? fst (strconv.ParseInt (pair a b) 16))
                   && (fst (strconv.ParseInt (pair a b) 16) <=? 255))) = true).
  { clear H. revert a b. apply forall_ascii2. vm_compute. reflexivity. }
  rewrite H in G. cbn [negb orb] in G.
  destruct (strconv.ParseInt (pair a b) 16) as [v [e|]];
    unfold noError in G; cbn [fst snd andb] in G.
  - discriminate.
  - exists v. split; [reflexivity|]. lia.
Qed.

Lemma fmt_d_byte (v : Z) :
  0 <= v <= 255 ->
  spec.isByteNumeral (fmt.d v) = true /\ spec.noDot (fmt.d v) = true
  /\ spec.numeralValue (fmt.d v) 0 = v.
Proof.
  intros H.
  assert (G : forallb (fun n => let v := Z.of_nat n in
                 spec.isByteNumeral (fmt.d v) && spec.noDot (fmt.d v)
                 && (spec.numeralValue (fmt.d v) 0 =? v)) (seq 0 256) = true)
    by (vm_compute; reflexivity).
  rewrite forallb_forall in G.
  specialize (G (Z.to_nat v)). rewrite Z2Nat.id in G by lia.
  assert (In (Z.to_nat v) (seq 0 256)) as Hin by (apply in_seq; lia).
  specialize (G Hin). simpl in G.
  apply andb_prop in G as [G G3]. apply andb_prop in G as [G1 G2].
  repeat split; try assumption. now apply Z.eqb_eq.
Qed.

(** ** [convertToOBIS] *)

Lemma convertToOBIS_unfold (logicalName : string) :
  emhcasa.convertToOBIS logicalName =
  let hex := spec.hexPart logicalName in
  if negb (Nat.eqb (String.length hex) 12)
  then Err (Errorf ("unexpected logical name: " ++ logicalName))
  else
    match strconv.ParseInt (substring 4 2 hex) 16 with
    | (_, Some err) => Err err
    | (c, None) =>
        match strconv.ParseInt (substring 6 2 hex) 16 with
        | (_, Some err) => Err err
        | (d, None) =>
            match strconv.ParseInt (substring 8 2 hex) 16 with
            | (_, Some err) => Err err
            | (e, None) => Ok (fmt.d c ++ "." ++ fmt.d d ++ "." ++ fmt.d e)
            end
        end
    end.
Proof. reflexivity. Qed.

Lemma segments_of_length12 (hex : string) :
  String.length hex = 12%nat ->
  exists c4 c5 c6 c7 c8 c9,
    substring 4 2 hex = pair c4 c5 /\ substring 6 2 hex = pair c6 c7
    /\ substring 8 2 hex = pair c8 c9.
Proof.
  intros H. apply length12_inv in H.
  destruct H as (c0 & c1 & c2 & c3 & c4 & c5 & c6 & c7 & c8 & c9 & c10 & c11 & ->).
  exists c4, c5, c6, c7, c8, c9. repeat split.
Qed.

(** When [convertToOBIS] fails: the part before the first dot does not
    have twelve bytes, or one of the three pairs is neither two hex digits
    nor a sign and a hex digit. *)
Lemma convertToOBIS_isErr (logicalName : string) :
  isErr (emhcasa.convertToOBIS logicalName) =
  let hex := spec.hexPart logicalName in
  negb (Nat.eqb (String.length hex) 12)
  || negb (spec.isSignedHexPair (substring 4 2 hex)
           && spec.isSignedHexPair (substring 6 2 hex)
           && spec.isSignedHexPair (substring 8 2 hex)).
Proof.
  rewrite convertToOBIS_unfold. cbv zeta.
  destruct (Nat.eqb (String.length (spec.hexPart logicalName)) 12) eqn:L;
    cbn [negb orb]; [|reflexivity].
  apply Nat.eqb_eq, segments_of_length12 in L.
  destruct L as (c4 & c5 & c6 & c7 & c8 & c9 & -> & -> & ->).
  rewrite <- !ParseInt_pair_noError. unfold noError.
  destruct (strconv.ParseInt (pair c4 c5) 16) as [c [e1|]]; [reflexivity|].
  destruct (strconv.ParseInt (pair c6 c7) 16) as [d [e2|]]; [reflexivity|].
  destruct (strconv.ParseInt (pair c8 c9) 16) as [e [e3|]]; reflexivity.
Qed.

Lemma isByteNumeral_isNumeral (s : string) :
  spec.isByteNumeral s = true -> spec.isNumeral s = true.
Proof.
  unfold spec.isByteNumeral. intros H.
  apply andb_prop in H as [H _]. now apply andb_prop in H as [H _].
Qed.

Lemma isByteCode_isStandardCode (s : string) :
  spec.isByteCode s = true -> spec.isStandardCode s = true.
Proof.
  unfold spec.isByteCode, spec.isStandardCode.
  destruct (strings.Split s ".") as [|c [|d [|e [|? ?]]]]; try discriminate.
  intros H. apply andb_prop in H as [H He]. apply andb_prop in H as [Hc Hd].
  now rewrite !isByteNumeral_isNumeral.
Qed.

Lemma byteCode_of_bytes (c d e : Z) :
  0 <= c <= 255 -> 0 <= d <= 255 -> 0 <= e <= 255 ->
  spec.isByteCode (fmt.d c ++ "." ++ fmt.d d ++ "." ++ fmt.d e) = true.
Proof.
  intros Hc Hd He.
  destruct (fmt_d_byte c Hc) as (C1 & C2 & _).
  destruct (fmt_d_byte d Hd) as (D1 & D2 & _).
  destruct (fmt_d_byte e He) as (E1 & E2 & _).
  unfold spec.isByteCode.
  change (fmt.d c ++ "." ++ fmt.d d ++ "." ++ fmt.d e)
    with (fmt.d c ++ String "." (fmt.d d ++ String "." (fmt.d e))).
  rewrite (Split_app_nodot _ _ C2), (Split_app_nodot _ _ D2), (Split_nodot _ E2).
  now rewrite C1, D1, E1.
Qed.

(** On a name whose three pairs are hex digits, [convertToOBIS] gives the
    three bytes in decimal, joined by dots. *)
Lemma convertToOBIS_hex (logicalName : string) :
  String.length (spec.hexPart logicalName) = 12%nat ->
  spec.pairsAreHex logicalName = true ->
  exists code, emhcasa.convertToOBIS logicalName = Ok code
               /\ spec.isByteCode code = true.
Proof.
  intros L H. rewrite convertToOBIS_unfold. cbv zeta.
  rewrite (proj2 (Nat.eqb_eq _ _) L). cbn [negb].
  unfold spec.pairsAreHex in H.
  destruct (segments_of_length12 _ L) as (c4 & c5 & c6 & c7 & c8 & c9 & E1 & E2 & E3).
  rewrite E1, E2, E3 in *.
  apply andb_prop in H as [H H3]. apply andb_prop in H as [H1 H2].
  destruct (ParseInt_hexPair _ _ H1) as (c & -> & Hc).
  destruct (ParseInt_hexPair _ _ H2) as (d & -> & Hd).
  destruct (ParseInt_hexPair _ _ H3) as (e & -> & He).
  eexists. split; [reflexivity|]. now apply byteCode_of_bytes.
Qed.

(** C5. The converter's fixed test vectors: the logical names
    [0100100700FF], [0100010800FF] and [0100020800FF] convert to [16.7.0],
    [1.8.0] and [2.8.0], and a decimal suffix is ignored:
    [0100100700FF.1] converts as [0100100700FF] does.  More generally a
    suffix after the dot never changes the result of a twelve-byte name
    without dot. *)
Theorem convertToOBIS_vectors :
  emhcasa.convertToOBIS "0100100700FF" = Ok "16.7.0"
  /\ emhcasa.convertToOBIS "0100010800FF" = Ok "1.8.0"
  /\ emhcasa.convertToOBIS "0100020800FF" = Ok "2.8.0"
  /\ emhcasa.convertToOBIS "0100100700FF.1" = emhcasa.convertToOBIS "0100100700FF"
  /\ (forall hex suffix : string,
        String.length hex = 12%nat -> spec.noDot hex = true ->
        emhcasa.convertToOBIS (hex ++ String "." suffix) = emhcasa.convertToOBIS hex).
Proof.
  repeat split; try reflexivity.
  intros hex suffix L D.
  rewrite !convertToOBIS_unfold. unfold spec.hexPart, strings.SplitN2.
  rewrite (cut_app_nodot _ _ D), (cut_nodot _ D). cbn [hd].
  now rewrite (proj2 (Nat.eqb_eq _ _) L).
Qed.

(** C7 (the code at the failing input). The name [0100+A0700FF] has twelve
    bytes before the dot and its pair at offsets 4-5 is [+A], which is not
    hexadecimal; [convertToOBIS] returns no error for it but the code
    [10.7.0].  The two names of the specification's examples do fail.  In
    general the call fails exactly when the part before the first dot does
    not have twelve bytes or one of the three pairs is neither two hex
    digits nor a sign followed by one hex digit. *)
Theorem convertToOBIS_accepts_signed_pair :
  spec.isHexPair (substring 4 2 (spec.hexPart "0100+A0700FF")) = false
  /\ String.length (spec.hexPart "0100+A0700FF") = 12%nat
  /\ emhcasa.convertToOBIS "0100+A0700FF" = Ok "10.7.0"
  /\ isErr (emhcasa.convertToOBIS "010010") = true
  /\ isErr (emhcasa.convertToOBIS "0100ZZZZ00FF") = true
  /\ (forall logicalName : string,
        isErr (emhcasa.convertToOBIS logicalName) =
        let hex := spec.hexPart logicalName in
        negb (Nat.eqb (String.length hex) 12)
        || negb (spec.isSignedHexPair (substring 4 2 hex)
                 && spec.isSignedHexPair (substring 6 2 hex)
                 && spec.isSignedHexPair (substring 8 2 hex))).
Proof.
  do 5 (split; [reflexivity|]). exact convertToOBIS_isErr.
Qed.

(** C10 (the code at the failing input). [convertToOBIS] succeeds on
    [0100-10700FF] with [-1.7.0]: its first numeral has a sign and stands
    for no integer between 0 and 255, so the result is no StandardCode,
    and the package's own [isValidOBIS] rejects it.  On a name whose three
    pairs are hex digits a successful result is a StandardCode of three
    byte numerals. *)
Theorem convertToOBIS_signed_output :
  emhcasa.convertToOBIS "0100-10700FF" = Ok "-1.7.0"
  /\ spec.isStandardCode "-1.7.0" = false
  /\ spec.isByteCode "-1.7.0" = false
  /\ emhcasa.isValidOBIS "-1.7.0" = false
  /\ (forall logicalName : string,
        String.length (spec.hexPart logicalName) = 12%nat ->
        spec.pairsAreHex logicalName = true ->
        exists code, emhcasa.convertToOBIS logicalName = Ok code
                     /\ spec.isByteCode code = true).
Proof.
  do 4 (split; [reflexivity|]). exact convertToOBIS_hex.
Qed.

(** ** The code registry *)

Lemma descriptions_NoDup : NoDup (obis.descriptions.*1).
Proof. apply (bool_decide_unpack _). vm_compute. exact I. Qed.

(** C9 (counterexample). For the unregistered code [99.99.99] the lookup
    answers [Unknown OBIS code: 99.99.99], which is not
    [Unknown code: 99.99.99]. *)
Lemma Description_default_prefix :
  obis.Description "99.99.99" = "Unknown OBIS code: 99.99.99"
  /\ String.eqb (obis.Description "99.99.99") "Unknown code: 99.99.99" = false.
Proof. split; reflexivity. Qed.

(** C9 (amended). [Description] is total: a registered code has the fixed
    description the registry lists for it, and every other code has
    [Unknown OBIS code: ] followed by the code. *)
Theorem Description_total (code : string) :
  (forall desc, In (code, desc) obis.descriptions -> obis.Description code = desc)
  /\ (~ In code (map fst obis.descriptions) ->
      obis.Description code = "Unknown OBIS code: " ++ code).
Proof.
  unfold obis.Description. split.
  - intros desc Hin. apply list_elem_of_In in Hin.
    now rewrite (elem_of_list_to_map_1 _ _ _ descriptions_NoDup Hin).
  - intros Hout.
    rewrite (not_elem_of_list_to_map_1 (M := gmap string)); [reflexivity|].
    rewrite list_elem_of_In.
    now change (obis.descriptions.*1) with (map fst obis.descriptions).
Qed.

(** ** Code-pattern unit inference *)

Lemma Split_upToDot (s : string) :
  strings.Split s "." =
  spec.upToDot s :: match spec.afterDot s with
                    | Some rest => strings.Split rest "."
                    | None => []
                    end.
Proof.
  induction s as [|c s IH]; simpl; [reflexivity|].
  destruct (Ascii.eqb c "."); [reflexivity|]. now rewrite IH.
Qed.

Lemma first_segment_test (first : string) (a b c d : string) :
  String.eqb first a || String.eqb first b || String.eqb first c || String.eqb first d
  = existsb (String.eqb first) [a; b; c; d].
Proof. simpl. now rewrite orb_false_r, !orb_assoc. Qed.

Lemma first_segment_test3 (first : string) (a b c : string) :
  String.eqb first a || String.eqb first b || String.eqb first c
  = existsb (String.eqb first) [a; b; c].
Proof. simpl. now rewrite orb_false_r, !orb_assoc. Qed.

Lemma unitOfSegments_known (first second : string) :
  In (spec.unitOfSegments first second)
     [smgwreader.UnitWatt; smgwreader.UnitWh; smgwreader.UnitAmpere;
      smgwreader.UnitVolt; smgwreader.UnitHertz].
Proof.
  unfold spec.unitOfSegments. case_ifs; simpl; tauto.
Qed.

(** C8. Code-pattern unit inference is a total function of the code: with
    the code split on dots, a second segment [8] gives watt-hours; a second
    segment [7] gives watts for a first segment 16, 36, 56 or 76, amperes
    for 31, 51 or 71, volts for 32, 52 or 72 and hertz for 14; everything
    else, a code without dot included, gives the default watts.  The
    result is always one of the five units. *)
Theorem determineUnit_infers (code : string) :
  ppc.determineUnit code = spec.inferUnit code
  /\ (spec.noDot code = true -> ppc.determineUnit code = smgwreader.UnitWatt)
  /\ (forall first second rest : string,
        spec.noDot first = true -> spec.noDot second = true ->
        (code = first ++ String "." second
         \/ code = first ++ String "." (second ++ String "." rest)) ->
        ppc.determineUnit code = spec.unitOfSegments first second)
  /\ In (ppc.determineUnit code)
        [smgwreader.UnitWatt; smgwreader.UnitWh; smgwreader.UnitAmpere;
         smgwreader.UnitVolt; smgwreader.UnitHertz].
Proof.
  assert (E : forall p0 p1 ps,
             strings.Split code "." = p0 :: p1 :: ps ->
             ppc.determineUnit code = spec.unitOfSegments p0 p1).
  { intros p0 p1 ps H. unfold ppc.determineUnit, spec.unitOfSegments. rewrite H.
    rewrite first_segment_test, !first_segment_test3.
    change (existsb (String.eqb p0) ["14"]) with (String.eqb p0 "14" || false).
    now rewrite orb_false_r. }
  assert (N : spec.noDot code = true -> ppc.determineUnit code = smgwreader.UnitWatt).
  { intros H. unfold ppc.determineUnit. now rewrite (Split_nodot _ H). }
  split; [|split; [exact N|split]].
  - unfold spec.inferUnit.
    pose proof (Split_upToDot code) as H.
    destruct (spec.afterDot code) as [rest|].
    + rewrite (Split_upToDot rest) in H. exact (E _ _ _ H).
    + unfold ppc.determineUnit. now rewrite H.
  - intros first second rest Hf Hs [-> | ->].
    + eapply E. now rewrite (Split_app_nodot _ _ Hf), (Split_nodot _ Hs).
    + eapply E.
      now rewrite (Split_app_nodot _ _ Hf), (Split_app_nodot _ _ Hs).
  - pose proof (Split_upToDot code) as H.
    destruct (spec.afterDot code) as [rest|].
    + rewrite (Split_upToDot rest) in H. rewrite (E _ _ _ H).
      apply unitOfSegments_known.
    + unfold ppc.determineUnit. rewrite H. simpl. tauto.
Qed.

(** ** Value normalisation *)

Lemma convertReading_Value (rt : Runtime) (item : emhcasa.MeterValue) (obis : string) :
  smgwreader.Value (emhcasa.convertReading rt item obis) =
  let scaled := (fst (ParseFloat rt (emhcasa.Value item))
                 * Pow rt 10 (float64_of_int (emhcasa.Scaler item)))%float in
  if emhcasa.Unit item =? 30 then (scaled / 1000)%float else scaled.
Proof.
  unfold emhcasa.convertReading. cbv zeta.
  destruct (emhcasa.Unit item =? 27) eqn:E27.
  - apply Z.eqb_eq in E27. rewrite E27. reflexivity.
  - destruct (emhcasa.Unit item =? 30); [reflexivity|].
    case_ifs; reflexivity.
Qed.

Lemma addValue_stored (rt : Runtime) (values : gmap string float)
    (item : emhcasa.MeterValue) (obis : string) (raw : float) :
  emhcasa.convertToOBIS (emhcasa.LogicalName item) = Ok obis ->
  ParseFloat rt (emhcasa.Value item) = (raw, None) ->
  In (emhcasa.Unit item) [27; 30; 33; 35; 44] ->
  emhcasa_v01.addValue rt values item !! obis =
  Some (let scaled := (raw * Pow rt 10 (float64_of_int (emhcasa.Scaler item)))%float in
        if emhcasa.Unit item =? 30 then (scaled / 1000)%float else scaled).
Proof.
  intros Hc Hp Hu. unfold emhcasa_v01.addValue. rewrite Hc, Hp. cbv zeta.
  simpl in Hu.
  destruct Hu as [<- | [<- | [<- | [<- | [<- | []]]]]]; simpl;
    now rewrite lookup_insert_eq.
Qed.

(** C6. Value normalisation multiplies the parsed raw value by ten to the
    scale exponent first and then, exactly when the unit tag is 30
    (watt-hours), divides by 1000; no other unit tag changes the scaled
    value.  This holds for the reading [convertReading] builds and for the
    value the earlier [GetMeterValues] stored.  In binary64:
    normalize("2500", 0, Watt) = 2500.0, normalize("5", 2, Watt) = 500.0,
    normalize("123450", 0, WattHour) = 123.45 and
    normalize("153", -1, Ampere) = 15.3.  The order of the two steps can be
    observed: for raw "3", exponent -2 and watt-hours the result is
    (3 * 0.01) / 1000, which differs from (3 / 1000) * 0.01. *)
Theorem normalize_scale_then_unit :
  (forall (rt : Runtime) (item : emhcasa.MeterValue) (obis : string),
     smgwreader.Value (emhcasa.convertReading rt item obis) =
     let scaled := (fst (ParseFloat rt (emhcasa.Value item))
                    * Pow rt 10 (float64_of_int (emhcasa.Scaler item)))%float in
     if emhcasa.Unit item =? 30 then (scaled / 1000)%float else scaled)
  /\ (forall (rt : Runtime) (values : gmap string float)
        (item : emhcasa.MeterValue) (obis : string) (raw : float),
        emhcasa.convertToOBIS (emhcasa.LogicalName item) = Ok obis ->
        ParseFloat rt (emhcasa.Value item) = (raw, None) ->
        In (emhcasa.Unit item) [27; 30; 33; 35; 44] ->
        emhcasa_v01.addValue rt values item !! obis =
        Some (let scaled :=
                (raw * Pow rt 10 (float64_of_int (emhcasa.Scaler item)))%float in
              if emhcasa.Unit item =? 30 then (scaled / 1000)%float else scaled))
  /\ spec.normalize goruntime.go "2500" 0 smgwreader.UnitWatt = 2500%float
  /\ spec.normalize goruntime.go "5" 2 smgwreader.UnitWatt = 500%float
  /\ spec.normalize goruntime.go "123450" 0 smgwreader.UnitWh = 123.45%float
  /\ spec.normalize goruntime.go "153" (-1) smgwreader.UnitAmpere = 15.3%float
  /\ spec.normalize goruntime.go "3" (-2) smgwreader.UnitWh = ((3 * 0.01) / 1000)%float
  /\ PrimFloat.eqb ((3 * 0.01) / 1000) ((3 / 1000) * 0.01) = false.
Proof.
  split; [exact convertReading_Value|].
  split; [exact addValue_stored|].
  repeat split; vm_compute; reflexivity.
Qed.

(** ** The assembled readings *)

Lemma addReading_lookup (rt : Runtime) (m : gmap string smgwreader.Reading)
    (item : emhcasa.MeterValue) (k : string) :
  is_Some (emhcasa.addReading rt m item !! k) <->
  is_Some (m !! k) \/ emhcasa.convertToOBIS (emhcasa.LogicalName item) = Ok k.
Proof.
  unfold emhcasa.addReading.
  destruct (emhcasa.convertToOBIS (emhcasa.LogicalName item)) as [obis|e].
  - rewrite lookup_insert_is_Some. split.
    + intros [-> | [_ H]]; [right; reflexivity | left; exact H].
    + intros [H | H].
      * destruct (decide (obis = k)); [left | right]; auto.
      * left. congruence.
  - split; [intros H; left; exact H | intros [H | H]; [exact H | discriminate]].
Qed.

Lemma fold_addReading_lookup (rt : Runtime) (values : list emhcasa.MeterValue)
    (m : gmap string smgwreader.Reading) (k : string) :
  is_Some (fold_left (emhcasa.addReading rt) values m !! k) <->
  is_Some (m !! k)
  \/ exists item, In item values
                  /\ emhcasa.convertToOBIS (emhcasa.LogicalName item) = Ok k.
Proof.
  revert m. induction values as [|v values IH]; intros m; simpl.
  - split; [intros H; left; exact H | intros [H | (item & [] & _)]; exact H].
  - rewrite IH, addReading_lookup. split.
    + intros [[H | H] | (item & Hin & H)].
      * left; exact H.
      * right; exists v; auto.
      * right; exists item; auto.
    + intros [H | (item & [<- | Hin] & H)].
      * left; left; exact H.
      * left; right; exact H.
      * right; exists item; auto.
Qed.

(** The keys the EMH CASA client assembles are the conversions of the
    entries' logical names: every entry that converts is stored, whatever
    its value string. *)
Lemma emhcasa_assemble_keys (rt : Runtime) (values : list emhcasa.MeterValue)
    (k : string) :
  is_Some (emhcasa.assemble rt values !! k) <->
  exists item, In item values
               /\ emhcasa.convertToOBIS (emhcasa.LogicalName item) = Ok k.
Proof.
  unfold emhcasa.assemble. rewrite fold_addReading_lookup, lookup_empty.
  split; [intros [[x H] | H]; [discriminate | exact H] | intros H; right; exact H].
Qed.

Lemma emhcasa_GetReadings_nonempty (rt : Runtime) (c c' : emhcasa.Client)
    (g : emhcasa.Gateway) (info : smgwreader.Information) :
  emhcasa.GetReadings rt c g = (c', Ok info) ->
  Nat.eqb (size (smgwreader.Readings info)) 0 = false.
Proof.
  unfold emhcasa.GetReadings.
  destruct (if String.eqb (emhcasa.meterID c) EmptyString
            then emhcasa.discoverMeterIDContext c g else (c, None)) as [c1 [e|]];
    [discriminate|].
  destruct (emhcasa.origin g (emhcasa.meterID c1)) as [reading|e]; [|discriminate].
  cbv zeta.
  destruct (Nat.eqb (size (emhcasa.assemble rt (emhcasa.Values reading))) 0) eqn:E;
    [discriminate|].
  intros H. injection H as _ <-. exact E.
Qed.

Lemma ppc_GetReadings_nonempty (rt : Runtime) (c c' : ppc.Client)
    (g : ppc.Gateway) (info : smgwreader.Information) :
  ppc.GetReadings rt c g = (c', Ok info) ->
  Nat.eqb (size (smgwreader.Readings info)) 0 = false.
Proof.
  unfold ppc.GetReadings. cbv zeta.
  destruct (if String.eqb (ppc.meterID c) EmptyString
            then match ppc.getMeterID g with
                 | Ok id => Ok (ppc.mkClient (ppc.baseURL c) id)
                 | Err err => Err (Wrapf "failed to get meter ID" err)
                 end
            else Ok c) as [c1|e]; [|discriminate].
  unfold ppc.getMeterProfile.
  destruct (ppc.showMeterProfile g (ppc.meterID c1)) as [doc|e]; [|discriminate].
  cbv zeta.
  destruct (Nat.eqb (size (ppc.extractReadings rt doc)) 0) eqn:E; [discriminate|].
  intros H. injection H as _ <-. exact E.
Qed.

(** C1 (the code at the failing input). The EMH CASA and the PPC client
    never answer with an Information whose readings are empty, whatever the
    gateway sends.  The Theben client does: when the gateway's channels
    hold no code of the client's table (here the single code
    [0100600100ff], or no channel at all), [GetReadings] returns an
    Information with an empty mapping and no error. *)
Theorem theben_GetReadings_empty_success :
  (forall (rt : Runtime) (c c' : emhcasa.Client) (g : emhcasa.Gateway)
          (info : smgwreader.Information),
     emhcasa.GetReadings rt c g = (c', Ok info) ->
     Nat.eqb (size (smgwreader.Readings info)) 0 = false)
  /\ (forall (rt : Runtime) (c c' : ppc.Client) (g : ppc.Gateway)
             (info : smgwreader.Information),
        ppc.GetReadings rt c g = (c', Ok info) ->
        Nat.eqb (size (smgwreader.Readings info)) 0 = false)
  /\ (forall rt : Runtime,
        exists info,
          theben.GetReadings rt examples.thebenClient examples.thebenUnknownCode
          = (examples.thebenClient, Ok info)
          /\ smgwreader.Readings info = ∅)
  /\ (forall rt : Runtime,
        exists info,
          theben.GetReadings rt examples.thebenClient examples.thebenNoChannel
          = (examples.thebenClient, Ok info)
          /\ smgwreader.Readings info = ∅).
Proof.
  split; [exact emhcasa_GetReadings_nonempty|].
  split; [exact ppc_GetReadings_nonempty|].
  split; intros rt; eexists; split; reflexivity.
Qed.

(** C2 (the code at the failing input). The gateway sends the three
    values 2500 (16.7.0), abc (1.8.0) and 12345 (2.8.0).  [abc] does not
    parse, yet [GetReadings] returns three readings and no error: the entry
    is stored under 1.8.0 with the value 0 that the parser returns beside
    its error.  The earlier [GetMeterValues] dropped the entry and
    returned two values.  For every runtime, an entry whose logical name
    converts is stored whatever its value string is. *)
Theorem GetReadings_keeps_unparsable_value :
  noError (ParseFloat goruntime.go "abc") = false
  /\ (exists info,
        emhcasa.GetReadings goruntime.go examples.casaClient examples.casaGateway
        = (examples.casaClient, Ok info)
        /\ size (smgwreader.Readings info) = 3%nat
        /\ smgwreader.Value <$> (smgwreader.Readings info !! "1.8.0") = Some 0%float)
  /\ (exists values,
        emhcasa_v01.GetMeterValues goruntime.go examples.casaClient examples.casaGateway
        = Ok values
        /\ size values = 2%nat /\ values !! "1.8.0" = None)
  /\ (forall (rt : Runtime) (values : list emhcasa.MeterValue)
             (item : emhcasa.MeterValue) (obis : string),
        In item values ->
        emhcasa.convertToOBIS (emhcasa.LogicalName item) = Ok obis ->
        is_Some (emhcasa.assemble rt values !! obis)).
Proof.
  split; [reflexivity|].
  split; [eexists; split; [reflexivity|split; vm_compute; reflexivity]|].
  split; [eexists; split; [reflexivity|split; vm_compute; reflexivity]|].
  intros rt values item obis Hin Hc. apply emhcasa_assemble_keys. eauto.
Qed.

(** ** Meter-identity selection *)

Lemma find_first {A : Type} (p : A -> bool) (before after : list A) (x : A) :
  spec.noneOf p before = true -> p x = true ->
  find p (before ++ x :: after)%list = Some x.
Proof.
  induction before as [|b before IH]; simpl; intros Hb Hx.
  - now rewrite Hx.
  - apply andb_prop in Hb as [Hb1 Hb2].
    destruct (p b); [discriminate|]. now apply IH.
Qed.

Lemma find_noneOf {A : Type} (p : A -> bool) (l : list A) :
  spec.noneOf p l = true -> find p l = None.
Proof.
  induction l as [|b l IH]; simpl; intros Hb; [reflexivity|].
  apply andb_prop in Hb as [Hb1 Hb2].
  destruct (p b); [discriminate|]. now apply IH.
Qed.

Lemma scanContracts_first (g : emhcasa.Gateway) (before after : list string)
    (id : string) (contract : emhcasa.DerivedContract) (sd : string)
    (sds : list string) :
  spec.noneOf (spec.hasSensorDomain g) before = true ->
  emhcasa.derivedContract g id = Ok contract ->
  emhcasa.SensorDomains contract = sd :: sds ->
  emhcasa.scanContracts g (before ++ id :: after)%list = Some sd.
Proof.
  intros Hb Hc Hs. induction before as [|b before IH]; simpl.
  - now rewrite Hc, Hs.
  - simpl in Hb. apply andb_prop in Hb as [Hb1 Hb2].
    unfold spec.hasSensorDomain in Hb1.
    destruct (emhcasa.derivedContract g b) as [ct|e]; [|now apply IH].
    destruct (emhcasa.SensorDomains ct); [now apply IH | discriminate].
Qed.

Lemma scanContracts_none (g : emhcasa.Gateway) (contracts : list string) :
  spec.noneOf (spec.hasSensorDomain g) contracts = true ->
  emhcasa.scanContracts g contracts = None.
Proof.
  induction contracts as [|b contracts IH]; simpl; intros Hb; [reflexivity|].
  apply andb_prop in Hb as [Hb1 Hb2].
  unfold spec.hasSensorDomain in Hb1.
  destruct (emhcasa.derivedContract g b) as [ct|e]; [|now apply IH].
  destruct (emhcasa.SensorDomains ct); [now apply IH | discriminate].
Qed.

(** C4 (counterexample). The EMH CASA gateway lists two contracts, none
    of which has a sensor domain: discovery does not fall back to the
    first contract, it fails and leaves the client without identity. *)
Lemma emhcasa_discovery_no_fallback :
  emhcasa.derived examples.casaGateway = Ok ["contract-1"; "contract-2"]
  /\ emhcasa.DiscoverMeterID examples.casaFresh examples.casaGateway
     = (examples.casaFresh, Err (Errorf "no contract with sensor domains found")).
Proof. split; reflexivity. Qed.

(** C4 (amended). The Theben client selects in two tiers: the first usage
    point, in listing order, that is running with TAF number 7; when there
    is none, the first usage point of the list; an error when the list is
    empty.  The EMH CASA client has one tier: the first sensor domain of
    the first contract, in listing order, that can be fetched and lists a
    sensor domain; when no contract does, the empty list included, it
    fails with a discovery error and keeps its identity unset.  The PPC
    client has no candidate list: it takes the identifier found in the
    meter form, and fails when there is none. *)
Theorem identity_selection_by_vendor :
  (* Theben *)
  (forall (before after : list theben.usagePoint) (up : theben.usagePoint),
     spec.noneOf theben.preferred before = true -> theben.preferred up = true ->
     theben.selectUsagePoint (before ++ up :: after)%list = Ok (theben.ID up))
  /\ (forall (up : theben.usagePoint) (rest : list theben.usagePoint),
        spec.noneOf theben.preferred (up :: rest) = true ->
        theben.selectUsagePoint (up :: rest) = Ok (theben.ID up))
  /\ theben.selectUsagePoint [] = Err (Errorf "no usage points found")
  /\ (forall (g : theben.Gateway) (usagePoints : list theben.usagePoint),
        theben.user_info g = Ok usagePoints ->
        theben.getUsagePointID g = theben.selectUsagePoint usagePoints)
  /\ theben.selectUsagePoint [examples.upA; examples.upB; examples.upC] = Ok "B"
  /\ theben.selectUsagePoint [examples.upA; examples.upC] = Ok "A"
  (* EMH CASA *)
  /\ (forall (c : emhcasa.Client) (g : emhcasa.Gateway) (before after : list string)
             (id : string) (contract : emhcasa.DerivedContract) (sd : string)
             (sds : list string),
        emhcasa.derived g = Ok (before ++ id :: after)%list ->
        spec.noneOf (spec.hasSensorDomain g) before = true ->
        emhcasa.derivedContract g id = Ok contract ->
        emhcasa.SensorDomains contract = sd :: sds ->
        emhcasa.discoverMeterIDContext c g
        = (emhcasa.mkClient (emhcasa.uri c) sd, None))
  /\ (forall (c : emhcasa.Client) (g : emhcasa.Gateway) (contracts : list string),
        emhcasa.derived g = Ok contracts ->
        spec.noneOf (spec.hasSensorDomain g) contracts = true ->
        emhcasa.discoverMeterIDContext c g
        = (c, Some (Errorf "no contract with sensor domains found")))
  (* PPC *)
  /\ (forall (g : ppc.Gateway) (doc : ppc.Node),
        ppc.meterform g = Ok doc ->
        ppc.getMeterID g
        = if String.eqb (ppc.extractMeterID doc) EmptyString
          then Err (Errorf "meter ID not found in response")
          else Ok (ppc.extractMeterID doc)).
Proof.
  repeat apply conj; try reflexivity.
  - intros before after up Hb Hp. unfold theben.selectUsagePoint.
    now rewrite (find_first _ _ _ _ Hb Hp).
  - intros up rest Hn. unfold theben.selectUsagePoint.
    now rewrite (find_noneOf _ _ Hn).
  - intros g ups H. unfold theben.getUsagePointID. now rewrite H.
  - intros c g before after id contract sd sds Hd Hb Hc Hs.
    unfold emhcasa.discoverMeterIDContext.
    now rewrite Hd, (scanContracts_first _ _ _ _ _ _ _ Hb Hc Hs).
  - intros c g contracts Hd Hn. unfold emhcasa.discoverMeterIDContext.
    now rewrite Hd, (scanContracts_none _ _ Hn).
  - intros g doc H. unfold ppc.getMeterID. now rewrite H.
Qed.

(** ** The keys of the readings, vendor by vendor *)

Lemma convertOBIS_range (hexOBIS : string) :
  theben.convertOBIS hexOBIS = EmptyString
  \/ In (theben.convertOBIS hexOBIS) (map snd theben.mappings).
Proof.
  unfold theben.convertOBIS.
  destruct (_ !! _) as [standard|] eqn:E; [right | left; reflexivity].
  apply elem_of_list_to_map_2, list_elem_of_In in E.
  exact (in_map snd _ _ E).
Qed.

Lemma mappings_prefixed (k : string) :
  In k (map snd theben.mappings) ->
  exists code, k = "1-0:" ++ code /\ spec.isByteCode code = true.
Proof.
  simpl. intros H.
  repeat (destruct H as [<- | H]; [eexists; split; reflexivity|]).
  contradiction.
Qed.

Lemma theben_addReading_lookup (rt : Runtime) (acc : gmap string smgwreader.Reading)
    (r : theben.reading) (k : string) :
  is_Some (theben.addReading rt acc r !! k) ->
  is_Some (acc !! k) \/ In k (map snd theben.mappings).
Proof.
  unfold theben.addReading. cbv zeta.
  destruct (String.eqb (theben.convertOBIS (theben.OBIS r)) EmptyString) eqn:E;
    [now left|].
  destruct (theben.parseValue rt _ _); [|now left].
  rewrite lookup_insert_is_Some. intros [<- | [_ H]]; [right | now left].
  destruct (convertOBIS_range (theben.OBIS r)) as [H | H]; [|exact H].
  rewrite H in E. discriminate.
Qed.

Lemma theben_fold_lookup (rt : Runtime) (rs : list theben.reading)
    (acc : gmap string smgwreader.Reading) (k : string) :
  is_Some (fold_left (theben.addReading rt) rs acc !! k) ->
  is_Some (acc !! k) \/ In k (map snd theben.mappings).
Proof.
  revert acc. induction rs as [|r rs IH]; intros acc; simpl; [now left|].
  intros H. apply IH in H as [H | H]; [|now right].
  now apply theben_addReading_lookup in H.
Qed.

Lemma theben_assemble_keys (rt : Runtime) (channels : list theben.channel)
    (k : string) :
  is_Some (theben.assemble rt channels !! k) -> In k (map snd theben.mappings).
Proof.
  unfold theben.assemble.
  assert (G : forall acc,
             is_Some (fold_left (fun acc ch =>
                        fold_left (theben.addReading rt) (theben.Readings ch) acc)
                        channels acc !! k) ->
             is_Some (acc !! k) \/ In k (map snd theben.mappings)).
  { induction channels as [|ch channels IH]; intros acc; simpl; [now left|].
    intros H. apply IH in H as [H | H]; [|now right].
    now apply theben_fold_lookup in H. }
  intros H. apply G in H as [[x H] | H]; [|exact H].
  rewrite lookup_empty in H. discriminate.
Qed.

(** Induction on a page: a property of a node follows from the property
    of its children. *)
Lemma Node_induction (P : ppc.Node -> Prop) :
  (forall t d attrs children,
      Forall P children -> P (ppc.mkNode t d attrs children)) ->
  forall n, P n.
Proof.
  intros H. fix IH 1. intros [t d attrs children]. apply H.
  induction children as [|c cs IHcs]; constructor; [apply IH | exact IHcs].
Qed.

Lemma extractRow_unfold (rt : Runtime) (t : ppc.NodeType) (d : string)
    (attrs : list ppc.Attribute) (children : list ppc.Node)
    (acc : gmap string smgwreader.Reading) :
  ppc.extractRow rt (ppc.mkNode t d attrs children) acc =
  let visit := fold_left (fun acc child => ppc.extractRow rt child acc) children in
  if ppc.isElement t && String.eqb d "tr"
  then match ppc.rowReading rt (ppc.mkNode t d attrs children) acc with
       | None => acc
       | Some acc' => visit acc'
       end
  else visit acc.
Proof.
  assert (E : forall cs a,
             (fix rows (cs : list ppc.Node) (acc : gmap string smgwreader.Reading) :=
                match cs with
                | [] => acc
                | child :: cs' => rows cs' (ppc.extractRow rt child acc)
                end) cs a
             = fold_left (fun acc child => ppc.extractRow rt child acc) cs a).
  { induction cs as [|c cs IH]; intros a; simpl; [reflexivity | apply IH]. }
  simpl. rewrite !E. reflexivity.
Qed.

Lemma rowReading_lookup (rt : Runtime) (n : ppc.Node)
    (acc acc' : gmap string smgwreader.Reading) (k : string) :
  ppc.rowReading rt n acc = Some acc' ->
  is_Some (acc' !! k) ->
  is_Some (acc !! k) \/ String.eqb k EmptyString = false.
Proof.
  unfold ppc.rowReading. cbv zeta.
  destruct (String.eqb (ppc.extractCellByID n "table_metervalues_col_obis") EmptyString)
    eqn:E; cbn [negb andb].
  - intros [= <-]. now left.
  - destruct (negb _).
    + destruct (ParseFloat rt _) as [val [e|]]; [discriminate|].
      intros [= <-]. rewrite lookup_insert_is_Some.
      intros [<- | [_ H]]; [right; exact E | now left].
    + intros [= <-]. now left.
Qed.

Lemma extractRow_lookup (rt : Runtime) (n : ppc.Node) :
  forall (acc : gmap string smgwreader.Reading) (k : string),
    is_Some (ppc.extractRow rt n acc !! k) ->
    is_Some (acc !! k) \/ String.eqb k EmptyString = false.
Proof.
  induction n as [t d attrs children IH] using Node_induction.
  assert (V : forall acc k,
             is_Some (fold_left (fun acc child => ppc.extractRow rt child acc)
                        children acc !! k) ->
             is_Some (acc !! k) \/ String.eqb k EmptyString = false).
  { induction IH as [|c cs Hc _ IHcs]; intros acc k; simpl; [now left|].
    intros H. apply IHcs in H as [H | H]; [|now right]. now apply Hc. }
  intros acc k. rewrite extractRow_unfold. cbv zeta.
  destruct (ppc.isElement t && String.eqb d "tr"); [|apply V].
  destruct (ppc.rowReading rt _ acc) as [acc'|] eqn:R; [|now left].
  intros H. apply V in H as [H | H]; [|now right].
  exact (rowReading_lookup _ _ _ _ _ R H).
Qed.

Lemma ppc_extractReadings_keys (rt : Runtime) (doc : ppc.Node) (k : string) :
  is_Some (ppc.extractReadings rt doc !! k) -> String.eqb k EmptyString = false.
Proof.
  unfold ppc.extractReadings.
  destruct (ppc.findElementByID doc "metervalue") as [table|].
  - intros H. apply extractRow_lookup in H as [[x H] | H]; [|exact H].
    rewrite lookup_empty in H. discriminate.
  - intros [x H]. rewrite lookup_empty in H. discriminate.
Qed.

(** The nodes of a page and the rows its readings come from. *)

Lemma preorder_unfold (t : ppc.NodeType) (d : string) (attrs : list ppc.Attribute)
    (children : list ppc.Node) :
  props.preorder (ppc.mkNode t d attrs children)
  = ppc.mkNode t d attrs children :: flat_map props.preorder children.
Proof. reflexivity. Qed.

(** What [findElementByID] finds is a node of the page. *)
Lemma findElementByID_In (n : ppc.Node) (id : string) (found : ppc.Node) :
  ppc.findElementByID n id = Some found -> In found (props.preorder n).
Proof.
  revert found. induction n as [t d attrs children IH] using Node_induction.
  intros found. rewrite preorder_unfold. simpl ppc.findElementByID.
  destruct (ppc.isElement t && existsb _ attrs);
    [intros [= <-]; left; reflexivity|].
  intros H. right.
  induction IH as [|c cs Hc _ IHcs]; simpl in *; [discriminate|].
  apply in_or_app.
  destruct (ppc.findElementByID c id) as [r|]; [left | right; auto].
  apply Hc. exact H.
Qed.

Lemma preorder_self (n : ppc.Node) : In n (props.preorder n).
Proof. destruct n. rewrite preorder_unfold. now left. Qed.

Lemma preorder_trans (d : ppc.Node) :
  forall n m, In n (props.preorder d) -> In m (props.preorder n) ->
              In m (props.preorder d).
Proof.
  induction d as [t dt attrs children IH] using Node_induction.
  intros n m. rewrite preorder_unfold. intros [<- | Hn] Hm.
  - now rewrite preorder_unfold in Hm.
  - right. apply in_flat_map in Hn as (c & Hc & Hn). apply in_flat_map.
    exists c. split; [exact Hc|]. rewrite Forall_forall in IH.
    apply list_elem_of_In in Hc. exact (IH c Hc n m Hn Hm).
Qed.

Lemma rowReading_stored (rt : Runtime) (row : ppc.Node)
    (acc acc' : gmap string smgwreader.Reading) :
  ppc.isElement (ppc.Type_ row) = true -> ppc.Data row = "tr" ->
  ppc.rowReading rt row acc = Some acc' ->
  forall k r, acc' !! k = Some r ->
              acc !! k = Some r \/ props.storedFromRow rt row k r.
Proof.
  intros Ht Hd. unfold ppc.rowReading. cbv zeta.
  destruct (String.eqb (ppc.extractCellByID row "table_metervalues_col_obis")
              EmptyString) eqn:E; cbn [negb andb]; [intros [= <-]; now left|].
  destruct (negb _); [|intros [= <-]; now left].
  destruct (ParseFloat rt _) as [val [e|]] eqn:P; [discriminate|].
  intros [= <-] k r.
  destruct (decide (ppc.extractCellByID row "table_metervalues_col_obis" = k))
    as [K | K].
  - rewrite K, lookup_insert_eq. intros [= <-]. right.
    unfold props.storedFromRow. rewrite K in *. now repeat split.
  - rewrite lookup_insert_ne by exact K. now left.
Qed.

Lemma extractRow_stored (rt : Runtime) (n : ppc.Node) :
  forall (acc : gmap string smgwreader.Reading) (k : string) (r : smgwreader.Reading),
    ppc.extractRow rt n acc !! k = Some r ->
    acc !! k = Some r
    \/ exists row, In row (props.preorder n) /\ props.storedFromRow rt row k r.
Proof.
  induction n as [t d attrs children IH] using Node_induction.
  assert (V : forall acc k r,
             fold_left (fun acc child => ppc.extractRow rt child acc)
               children acc !! k = Some r ->
             acc !! k = Some r
             \/ exists row, In row (flat_map props.preorder children)
                            /\ props.storedFromRow rt row k r).
  { induction IH as [|c cs Hc _ IHcs]; intros acc k r; simpl; [now left|].
    intros H. apply IHcs in H as [H | (row & Hin & Hs)].
    - apply Hc in H as [H | (row & Hin & Hs)]; [now left|].
      right. exists row. split; [apply in_or_app; now left | exact Hs].
    - right. exists row. split; [apply in_or_app; now right | exact Hs]. }
  intros acc k r. rewrite extractRow_unfold, preorder_unfold. cbv zeta.
  destruct (ppc.isElement t && String.eqb d "tr") eqn:T.
  - apply andb_prop in T as [Tt Td]. apply String.eqb_eq in Td.
    destruct (ppc.rowReading rt _ acc) as [acc'|] eqn:R; [|now left].
    intros H. apply V in H as [H | (row & Hin & Hs)].
    + destruct (rowReading_stored rt (ppc.mkNode t d attrs children) acc acc'
                  Tt Td R k r H) as [H' | H']; [now left|].
      right. eexists. split; [left; reflexivity | exact H'].
    + right. exists row. split; [now right | exact Hs].
  - intros H. apply V in H as [H | (row & Hin & Hs)]; [now left|].
    right. exists row. split; [now right | exact Hs].
Qed.

(** C3 (counterexample). The Theben client stores the active power under
    the key [1-0:16.7.0], and the PPC client stores a row under whatever
    text its code cell holds, here [Wirkleistung gesamt]; neither key has
    the form C.D.E. *)
Lemma vendor_keys_not_standard :
  (exists info,
     theben.GetReadings goruntime.go examples.thebenClient examples.thebenPower
     = (examples.thebenClient, Ok info)
     /\ map fst (map_to_list (smgwreader.Readings info)) = ["1-0:16.7.0"])
  /\ spec.isStandardCode "1-0:16.7.0" = false
  /\ map fst (map_to_list (ppc.extractReadings goruntime.go examples.ppcPage))
     = ["Wirkleistung gesamt"]
  /\ spec.isStandardCode "Wirkleistung gesamt" = false.
Proof.
  split; [eexists; split; [reflexivity | vm_compute; reflexivity]|].
  repeat split; vm_compute; reflexivity.
Qed.

(** ** [isValidOBIS] is the StandardCode format *)

Lemma digit_not_dot (c : ascii) : isDigit c = true -> Ascii.eqb c "." = false.
Proof.
  intros H.
  assert (G : (negb (isDigit c) || negb (Ascii.eqb c ".")) = true).
  { revert c H. intros c _. revert c. apply forall_ascii. vm_compute. reflexivity. }
  rewrite H in G. simpl in G. now apply negb_true_iff in G.
Qed.

Lemma validLoop_restOK (s : string) :
  forall (i n k : nat) (b : bool),
    n = (i + String.length s)%nat ->
    ((b || Nat.eqb i 0) = true -> s <> EmptyString) ->
    emhcasa.validLoop s i n k b = restOK k (b || Nat.eqb i 0) s.
Proof.
  induction s as [|c s IH]; intros i n k b Hn Hne.
  - destruct (b || Nat.eqb i 0) eqn:E; [exfalso; now apply Hne|].
    unfold restOK. simpl. now rewrite Nat.add_0_r.
  - simpl emhcasa.validLoop. unfold restOK. simpl strings.Split.
    destruct (Ascii.eqb c ".") eqn:Ec.
    + destruct (b || Nat.eqb i 0) eqn:E; [reflexivity|].
      cbn [orb negb andb spec.allDigits String.eqb].
      destruct (Nat.eqb i (n - 1)) eqn:E1.
      * apply Nat.eqb_eq in E1. simpl in Hn.
        destruct s; [reflexivity | simpl in Hn; lia].
      * apply Nat.eqb_neq in E1. simpl in Hn.
        rewrite (IH (S i) n (S k) true); [|lia|].
        -- unfold restOK. pose proof (Split_nonempty s) as Hs.
           destruct (strings.Split s ".") as [|p ps]; [contradiction|].
           cbn [orb negb andb forallb List.length]. unfold spec.isNumeral.
           rewrite Nat.add_succ_r. cbn [Nat.add].
           destruct (spec.allDigits p), (String.eqb p EmptyString),
             (forallb _ ps); reflexivity.
        -- intros _ ->. simpl in Hn. lia.
    + destruct (isDigit c) eqn:Ed.
      * simpl in Hn. rewrite (IH (S i) n k false); [|lia|discriminate].
        unfold restOK. pose proof (Split_nonempty s) as Hs.
        destruct (strings.Split s ".") as [|p ps]; [contradiction|].
        cbn [orb negb andb spec.allDigits String.eqb Nat.eqb]. rewrite Ed.
        now rewrite orb_true_r.
      * destruct (strings.Split s ".") as [|p ps];
          cbn [spec.allDigits andb]; now rewrite Ed.
Qed.

Lemma length_append (a b : string) :
  String.length (a ++ b) = (String.length a + String.length b)%nat.
Proof. induction a as [|c a IH]; simpl; [reflexivity | now rewrite IH]. Qed.

Lemma isNumeral_length (s : string) :
  spec.isNumeral s = true -> (1 <= String.length s)%nat.
Proof. destruct s; [discriminate | simpl; lia]. Qed.

Lemma isStandardCode_length (s : string) :
  spec.isStandardCode s = true -> (5 <= String.length s)%nat.
Proof.
  unfold spec.isStandardCode. intros H. rewrite <- (Split_join s).
  destruct (strings.Split s ".") as [|c [|d [|e [|? ?]]]]; try discriminate.
  apply andb_prop in H as [H He]. apply andb_prop in H as [Hc Hd].
  apply isNumeral_length in Hc, Hd, He.
  simpl. rewrite !length_append. simpl. lia.
Qed.

(** The validity check of the package's tests accepts exactly the strings
    of the StandardCode format. *)
Lemma isValidOBIS_isStandardCode (s : string) :
  emhcasa.isValidOBIS s = spec.isStandardCode s.
Proof.
  unfold emhcasa.isValidOBIS.
  destruct (Nat.ltb (String.length s) 5) eqn:L.
  - apply Nat.ltb_lt in L.
    destruct (spec.isStandardCode s) eqn:E; [|reflexivity].
    apply isStandardCode_length in E. lia.
  - apply Nat.ltb_ge in L.
    rewrite validLoop_restOK; [|reflexivity|intros _ ->; simpl in L; lia].
    unfold restOK, spec.isStandardCode, spec.isNumeral.
    destruct (strings.Split s ".") as [|c [|d [|e [|? ?]]]]; try reflexivity;
      cbn [orb negb andb forallb List.length Nat.eqb Nat.add].
    + now rewrite !andb_false_r.
    + now rewrite !andb_false_r.
    + destruct (spec.allDigits c), (String.eqb c EmptyString),
        (spec.allDigits d), (String.eqb d EmptyString),
        (spec.allDigits e), (String.eqb e EmptyString); reflexivity.
    + now rewrite !andb_false_r.
Qed.

(** C3 (amended). Every key the EMH CASA client inserts is the conversion
    of an entry's logical name, and for a logical name whose three
    extracted pairs are hex digits that key has the form C.D.E, each number
    the decimal rendering of a byte.  Every key the Theben client inserts
    is one of the codes of its table [mappings], and so is [1-0:] followed
    by a code of the form C.D.E.  Every key the PPC client inserts is the
    text, not empty, of the code cell of a [tr] element inside the table
    with the id [metervalue]; it is not checked against the form. *)
Theorem reading_keys_by_vendor :
  (forall (rt : Runtime) (values : list emhcasa.MeterValue) (k : string),
     is_Some (emhcasa.assemble rt values !! k) ->
     exists item,
       In item values
       /\ emhcasa.convertToOBIS (emhcasa.LogicalName item) = Ok k
       /\ (spec.pairsAreHex (emhcasa.LogicalName item) = true ->
           spec.isStandardCode k = true /\ spec.isByteCode k = true
           /\ emhcasa.isValidOBIS k = true))
  /\ (forall (rt : Runtime) (channels : list theben.channel) (k : string),
        is_Some (theben.assemble rt channels !! k) ->
        In k (map snd theben.mappings)
        /\ exists code, k = "1-0:" ++ code
                        /\ spec.isStandardCode code = true
                        /\ spec.isByteCode code = true)
  /\ (forall (rt : Runtime) (doc : ppc.Node) (k : string),
        is_Some (ppc.extractReadings rt doc !! k) ->
        String.eqb k EmptyString = false
        /\ exists table row,
             ppc.findElementByID doc "metervalue" = Some table
             /\ In row (props.preorder table)
             /\ ppc.isElement (ppc.Type_ row) = true
             /\ ppc.Data row = "tr"
             /\ ppc.extractCellByID row "table_metervalues_col_obis" = k).
Proof.
  split; [|split].
  - intros rt values k H. apply emhcasa_assemble_keys in H as (item & Hin & Hc).
    exists item. split; [exact Hin|]. split; [exact Hc|]. intros Hp.
    assert (L : String.length (spec.hexPart (emhcasa.LogicalName item)) = 12%nat).
    { pose proof (convertToOBIS_isErr (emhcasa.LogicalName item)) as E.
      rewrite Hc in E. cbv zeta in E. cbn [isErr isOk negb] in E.
      symmetry in E. apply orb_false_elim in E as [E _].
      apply negb_false_iff, Nat.eqb_eq in E. exact E. }
    destruct (convertToOBIS_hex _ L Hp) as (code & Hcode & Hb).
    rewrite Hc in Hcode. injection Hcode as <-.
    pose proof (isByteCode_isStandardCode _ Hb) as Hstd.
    split; [exact Hstd|]. split; [exact Hb|].
    now rewrite isValidOBIS_isStandardCode.
  - intros rt channels k H. apply theben_assemble_keys in H.
    split; [exact H|]. apply mappings_prefixed in H.
    destruct H as (code & -> & Hb). exists code.
    split; [reflexivity|]. split; [now apply isByteCode_isStandardCode | exact Hb].
  - intros rt doc k H. split; [exact (ppc_extractReadings_keys _ _ _ H)|].
    revert H. unfold ppc.extractReadings.
    destruct (ppc.findElementByID doc "metervalue") as [table|];
      [|intros [r H]; rewrite lookup_empty in H; discriminate].
    intros [r H]. apply extractRow_stored in H as [H | (row & Hin & Hs)];
      [rewrite lookup_empty in H; discriminate|].
    exists table, row. split; [reflexivity|]. split; [exact Hin|].
    destruct Hs as (Ht & Hd & Hk & _). auto.
Qed.

(** ** The results at concrete inputs *)

(** Witness of C5, at a name of the test suite with a suffix: [01001F0700FF.255]
    converts as [01001F0700FF] does, to [31.7.0]. *)
Lemma convertToOBIS_vectors_witness :
  emhcasa.convertToOBIS "01001F0700FF.255" = emhcasa.convertToOBIS "01001F0700FF"
  /\ emhcasa.convertToOBIS "01001F0700FF" = Ok "31.7.0".
Proof.
  split; [|reflexivity].
  apply (proj2 (proj2 (proj2 (proj2 convertToOBIS_vectors))) "01001F0700FF" "255");
    reflexivity.
Defined.

(** Witness of C6, at an entry of the earlier client: 2315 with exponent -1 in volts
    is stored as 231.5. *)
Lemma normalize_scale_then_unit_witness :
  emhcasa_v01.addValue goruntime.go ∅
    (emhcasa.mkMeterValue "2315" 35 (-1) "0100200700FF") !! "32.7.0"
  = Some ((2315 * Pow goruntime.go 10 (float64_of_int (-1)))%float)
  /\ (2315 * Pow goruntime.go 10 (float64_of_int (-1)))%float = 231.5%float.
Proof.
  split; [|vm_compute; reflexivity].
  apply (proj1 (proj2 normalize_scale_then_unit) goruntime.go ∅
           (emhcasa.mkMeterValue "2315" 35 (-1) "0100200700FF") "32.7.0" 2315%float).
  - reflexivity.
  - vm_compute; reflexivity.
  - simpl; tauto.
Defined.

(** Witness of C8, at the codes [1.8.0], [31.7.0] and [16]. *)
Lemma determineUnit_infers_witness :
  ppc.determineUnit "1.8.0" = smgwreader.UnitWh
  /\ ppc.determineUnit "31.7.0" = smgwreader.UnitAmpere
  /\ ppc.determineUnit "16" = smgwreader.UnitWatt.
Proof.
  split; [|split].
  - apply (proj1 (proj2 (proj2 (determineUnit_infers "1.8.0"))) "1" "8" "0");
      [reflexivity | reflexivity | right; reflexivity].
  - apply (proj1 (proj2 (proj2 (determineUnit_infers "31.7.0"))) "31" "7" "0");
      [reflexivity | reflexivity | right; reflexivity].
  - apply (proj1 (proj2 (determineUnit_infers "16"))). reflexivity.
Defined.

(** Witness of C9, at a registered and at an unregistered code. *)
Lemma Description_total_witness :
  obis.Description obis.PowerActive = "Current active power (W)"
  /\ obis.Description "0.0.0" = "Unknown OBIS code: 0.0.0".
Proof.
  split.
  - apply (proj1 (Description_total obis.PowerActive)). simpl. tauto.
  - apply (proj2 (Description_total "0.0.0")). simpl.
    intros H. repeat (destruct H as [H | H]; [discriminate H|]). exact H.
Defined.

(** Witness of C4, at the specification's lists of candidates and at a CASA gateway
    whose contracts have no sensor domain. *)
Lemma identity_selection_by_vendor_witness :
  theben.selectUsagePoint [examples.upA; examples.upB; examples.upC] = Ok "B"
  /\ theben.selectUsagePoint [examples.upA; examples.upC] = Ok "A"
  /\ emhcasa.discoverMeterIDContext examples.casaFresh examples.casaGateway
     = (examples.casaFresh, Some (Errorf "no contract with sensor domains found")).
Proof.
  destruct identity_selection_by_vendor
    as (T1 & T2 & _ & _ & _ & _ & _ & E2 & _).
  split; [|split].
  - apply (T1 [examples.upA] [examples.upC] examples.upB); reflexivity.
  - apply (T2 examples.upA [examples.upC]). reflexivity.
  - apply (E2 examples.casaFresh examples.casaGateway ["contract-1"; "contract-2"]);
      reflexivity.
Defined.

(** Witness of C3, at the three example gateways: the key 16.7.0 of the CASA values
    is a StandardCode, the Theben key is a code of the table and a
    prefixed one, the PPC key is the text of a row's code cell. *)
Lemma reading_keys_by_vendor_witness :
  (exists item,
     In item examples.casaThreeValues
     /\ emhcasa.convertToOBIS (emhcasa.LogicalName item) = Ok "16.7.0"
     /\ (spec.pairsAreHex (emhcasa.LogicalName item) = true ->
         spec.isStandardCode "16.7.0" = true /\ spec.isByteCode "16.7.0" = true
         /\ emhcasa.isValidOBIS "16.7.0" = true))
  /\ (In "1-0:16.7.0" (map snd theben.mappings)
      /\ exists code, "1-0:16.7.0" = "1-0:" ++ code
                      /\ spec.isStandardCode code = true
                      /\ spec.isByteCode code = true)
  /\ (String.eqb "Wirkleistung gesamt" EmptyString = false
      /\ exists table row,
           ppc.findElementByID examples.ppcPage "metervalue" = Some table
           /\ In row (props.preorder table)
           /\ ppc.isElement (ppc.Type_ row) = true
           /\ ppc.Data row = "tr"
           /\ ppc.extractCellByID row "table_metervalues_col_obis"
              = "Wirkleistung gesamt").
Proof.
  destruct reading_keys_by_vendor as (K1 & K2 & K3).
  split; [|split].
  - apply (K1 goruntime.go examples.casaThreeValues "16.7.0").
    vm_compute. eexists. reflexivity.
  - apply (K2 goruntime.go
             [theben.mkChannel
                [theben.mkRawReading "0100100700ff" "15000000" EmptyString]]
             "1-0:16.7.0").
    vm_compute. eexists. reflexivity.
  - apply (K3 goruntime.go examples.ppcPage "Wirkleistung gesamt").
    vm_compute. eexists. reflexivity.
Defined.

(** * Part III: further properties of the clients *)

(** ** The EMH CASA reading assembler *)

Lemma addReading_lookup_eq (rt : Runtime) (m : gmap string smgwreader.Reading)
    (item : emhcasa.MeterValue) (k : string) :
  emhcasa.addReading rt m item !! k =
  if props.convertsTo k item then Some (emhcasa.convertReading rt item k)
  else m !! k.
Proof.
  unfold emhcasa.addReading, props.convertsTo.
  destruct (emhcasa.convertToOBIS (emhcasa.LogicalName item)) as [code|e];
    [|reflexivity].
  destruct (String.eqb code k) eqn:E.
  - apply String.eqb_eq in E. subst. apply lookup_insert_eq.
  - apply String.eqb_neq in E. now apply lookup_insert_ne.
Qed.

(** X1. The reading the EMH CASA client stores under a code is the one
    built from the last entry, in the order of the gateway's answer, whose
    logical name converts to that code; a code no entry converts to has no
    reading.  So a later entry with the same code overwrites an earlier
    one, and entries that do not convert change nothing. *)
Theorem assemble_last_entry_wins (rt : Runtime) (values : list emhcasa.MeterValue)
    (k : string) :
  emhcasa.assemble rt values !! k =
  option_map (fun item => emhcasa.convertReading rt item k)
             (props.findLast (props.convertsTo k) values).
Proof.
  unfold emhcasa.assemble, props.findLast.
  induction values as [|item values IH] using rev_ind.
  - simpl. apply lookup_empty.
  - rewrite fold_left_app, rev_app_distr. simpl.
    rewrite addReading_lookup_eq.
    destruct (props.convertsTo k item); [reflexivity | exact IH].
Qed.

(** ** The two releases of [GetMeterValues] *)

Lemma knownUnit_cases (u : Z) :
  props.knownUnit u = true -> u = 27 \/ u = 30 \/ u = 33 \/ u = 35 \/ u = 44.
Proof.
  unfold props.knownUnit. simpl. rewrite orb_false_r, !orb_true_iff, !Z.eqb_eq.
  tauto.
Qed.

Lemma addReading_addValue (rt : Runtime) (m : gmap string smgwreader.Reading)
    (item : emhcasa.MeterValue) :
  props.treatedAlike rt item = true ->
  smgwreader.Value <$> emhcasa.addReading rt m item
  = emhcasa_v01.addValue rt (smgwreader.Value <$> m) item.
Proof.
  unfold props.treatedAlike, emhcasa.addReading, emhcasa_v01.addValue.
  destruct (emhcasa.convertToOBIS (emhcasa.LogicalName item)) as [code|e];
    [|reflexivity].
  intros H. apply andb_prop in H as [Hp Hu].
  rewrite fmap_insert, convertReading_Value. cbv zeta.
  destruct (ParseFloat rt (emhcasa.Value item)) as [raw [e|]]; [discriminate|].
  cbn [fst].
  destruct (knownUnit_cases _ Hu) as [-> | [-> | [-> | [-> | ->]]]]; reflexivity.
Qed.

Lemma fold_addReading_addValue (rt : Runtime) (values : list emhcasa.MeterValue) :
  forallb (props.treatedAlike rt) values = true ->
  forall m : gmap string smgwreader.Reading,
    smgwreader.Value <$> fold_left (emhcasa.addReading rt) values m
    = fold_left (emhcasa_v01.addValue rt) values (smgwreader.Value <$> m).
Proof.
  induction values as [|item values IH]; simpl; intros H m; [reflexivity|].
  apply andb_prop in H as [H1 H2].
  now rewrite (IH H2), (addReading_addValue _ _ _ H1).
Qed.

(** X2. With the meter identity set, [GetMeterValues] answers what the
    [GetMeterValues] of release 0.1.0 answered (the same map of values or
    the same error) and leaves the client as it is, whenever every entry
    of the gateway's answer whose logical name converts has a value that
    parses and one of the five known unit tags. *)
Theorem GetMeterValues_agrees_with_v01 (rt : Runtime) (c : emhcasa.Client)
    (g : emhcasa.Gateway) :
  String.eqb (emhcasa.meterID c) EmptyString = false ->
  (forall reading, emhcasa.origin g (emhcasa.meterID c) = Ok reading ->
                   forallb (props.treatedAlike rt) (emhcasa.Values reading) = true) ->
  emhcasa.GetMeterValues rt c g = (c, emhcasa_v01.GetMeterValues rt c g).
Proof.
  intros Hid Hall.
  unfold emhcasa.GetMeterValues, emhcasa.GetReadings, emhcasa_v01.GetMeterValues.
  rewrite Hid.
  destruct (emhcasa.origin g (emhcasa.meterID c)) as [reading|e]; [|reflexivity].
  specialize (Hall reading eq_refl). cbv zeta.
  pose proof (fold_addReading_addValue rt _ Hall ∅) as F.
  rewrite fmap_empty in F. unfold emhcasa.assemble.
  rewrite <- F, map_size_fmap.
  destruct (Nat.eqb (size (fold_left (emhcasa.addReading rt)
                             (emhcasa.Values reading) ∅)) 0); reflexivity.
Qed.

(** Witness of X2, at a gateway answering two well-formed entries. *)
Lemma GetMeterValues_agrees_with_v01_witness :
  emhcasa.GetMeterValues goruntime.go examples.casaClient
    (emhcasa.mkGateway (Err (Transport "unused")) (fun _ => Err (Transport "unused"))
       (fun _ => Ok (emhcasa.mkMeterReading
                       [emhcasa.mkMeterValue "2500" 27 0 "0100100700FF";
                        emhcasa.mkMeterValue "123450" 30 0 "0100010800FF"])))
  = (examples.casaClient,
     emhcasa_v01.GetMeterValues goruntime.go examples.casaClient
       (emhcasa.mkGateway (Err (Transport "unused")) (fun _ => Err (Transport "unused"))
          (fun _ => Ok (emhcasa.mkMeterReading
                          [emhcasa.mkMeterValue "2500" 27 0 "0100100700FF";
                           emhcasa.mkMeterValue "123450" 30 0 "0100010800FF"])))).
Proof.
  apply GetMeterValues_agrees_with_v01.
  - reflexivity.
  - intros reading H. injection H as <-. vm_compute. reflexivity.
Defined.

(** ** Calls in sequence *)






(** The Theben readings as one loop over the raw readings of all channels. *)
Lemma theben_assemble_flat (rt : Runtime) (channels : list theben.channel) :
  theben.assemble rt channels
  = fold_left (theben.addReading rt) (props.allReadings channels) ∅.
Proof.
  unfold theben.assemble, props.allReadings. generalize (∅ : gmap string smgwreader.Reading).
  induction channels as [|ch channels IH]; intros acc; simpl; [reflexivity|].
  now rewrite fold_left_app, IH.
Qed.

(** The clock of a call shows in the times of its result and nowhere else. *)













(** X4. Once the meter identity is set, [GetReadings] never consults the
    discovery endpoints and never changes the client: the EMH CASA result
    depends on the gateway through the reading endpoint of that identity
    alone, the Theben result through the gateway information and the
    readings, the PPC result through the meter profile of that identity.
    The Theben client does not send the identity with its readings
    request, so two identities get the same readings. *)
Theorem GetReadings_with_identity :
  (forall (rt : Runtime) (c : emhcasa.Client) (g g' : emhcasa.Gateway),
     String.eqb (emhcasa.meterID c) EmptyString = false ->
     emhcasa.origin g (emhcasa.meterID c) = emhcasa.origin g' (emhcasa.meterID c) ->
     emhcasa.GetReadings rt c g = emhcasa.GetReadings rt c g'
     /\ fst (emhcasa.GetReadings rt c g) = c)
  /\ (forall (rt : Runtime) (c : theben.Client) (g g' : theben.Gateway),
        String.eqb (theben.meterID c) EmptyString = false ->
        theben.smgw_info g = theben.smgw_info g' ->
        theben.readings g = theben.readings g' ->
        theben.GetReadings rt c g = theben.GetReadings rt c g'
        /\ fst (theben.GetReadings rt c g) = c)
  /\ (forall (rt : Runtime) (c : ppc.Client) (g g' : ppc.Gateway),
        String.eqb (ppc.meterID c) EmptyString = false ->
        ppc.showMeterProfile g (ppc.meterID c) = ppc.showMeterProfile g' (ppc.meterID c) ->
        ppc.GetReadings rt c g = ppc.GetReadings rt c g'
        /\ fst (ppc.GetReadings rt c g) = c)
  /\ (forall (rt : Runtime) (c1 c2 : theben.Client) (g : theben.Gateway)
             (info1 : smgwreader.Information),
        String.eqb (theben.meterID c1) EmptyString = false ->
        String.eqb (theben.meterID c2) EmptyString = false ->
        theben.GetReadings rt c1 g = (c1, Ok info1) ->
        exists info2,
          theben.GetReadings rt c2 g = (c2, Ok info2)
          /\ smgwreader.Readings info2 = smgwreader.Readings info1).
Proof.
  repeat apply conj.
  - intros rt c g g' E O. unfold emhcasa.GetReadings. rewrite E, <- O.
    split; [reflexivity|].
    destruct (emhcasa.origin g _); cbv zeta; [destruct (Nat.eqb _ 0)|]; reflexivity.
  - intros rt c g g' E I R. unfold theben.GetReadings, theben.getReadings.
    rewrite E, <- I, <- R. split; [reflexivity|].
    destruct (theben.smgw_info g); [|reflexivity].
    destruct (theben.readings g); reflexivity.
  - intros rt c g g' E P. unfold ppc.GetReadings, ppc.getMeterProfile. cbv zeta.
    rewrite E, <- P. split; [reflexivity|].
    destruct (ppc.showMeterProfile g _); [|reflexivity].
    destruct (Nat.eqb _ 0); reflexivity.
  - intros rt c1 c2 g info1 E1 E2. unfold theben.GetReadings, theben.getReadings.
    rewrite E1, E2.
    destruct (theben.smgw_info g); [|discriminate].
    destruct (theben.readings g); [|discriminate].
    intros [= <-]. eexists. split; reflexivity.
Qed.

(** Witness of X4, at the EMH CASA client with identity: the result is
    the same whether the gateway's contracts can be listed or not. *)
Lemma GetReadings_with_identity_witness :
  emhcasa.GetReadings goruntime.go examples.casaClient examples.casaGateway
  = emhcasa.GetReadings goruntime.go examples.casaClient examples.casaUnlisted
  /\ fst (emhcasa.GetReadings goruntime.go examples.casaClient examples.casaGateway)
     = examples.casaClient.
Proof.
  apply (proj1 GetReadings_with_identity goruntime.go examples.casaClient
           examples.casaGateway examples.casaUnlisted); reflexivity.
Defined.

(** ** The identity accessors *)

Lemma emhcasa_discover_again (c c' : emhcasa.Client) (g : emhcasa.Gateway) :
  emhcasa.discoverMeterIDContext c g = (c', None) ->
  emhcasa.discoverMeterIDContext c' g = (c', None).
Proof.
  unfold emhcasa.discoverMeterIDContext.
  destruct (emhcasa.derived g) as [contracts|e]; [|discriminate].
  destruct (emhcasa.scanContracts g contracts) as [sd|]; [|discriminate].
  now intros [= <-].
Qed.

Lemma emhcasa_MeterID_facts (c : emhcasa.Client) (g : emhcasa.Gateway) :
  (forall id, String.eqb id EmptyString = false ->
              emhcasa.MeterID (emhcasa.SetMeterID c id) g
              = (emhcasa.SetMeterID c id, id))
  /\ (forall c' id, emhcasa.DiscoverMeterID c g = (c', Ok id) ->
                    emhcasa.meterID c' = id /\ emhcasa.MeterID c' g = (c', id))
  /\ (forall c' e, emhcasa.DiscoverMeterID c g = (c', Err e) ->
                   c' = c
                   /\ (String.eqb (emhcasa.meterID c) EmptyString = true ->
                       emhcasa.MeterID c g = (c, EmptyString))).
Proof.
  repeat apply conj.
  - intros id H. unfold emhcasa.MeterID, emhcasa.SetMeterID.
    cbn [emhcasa.meterID]. now rewrite H.
  - intros c' id. unfold emhcasa.DiscoverMeterID.
    destruct (emhcasa.discoverMeterIDContext c g) as [c1 [e|]] eqn:D; [discriminate|].
    intros [= <- <-]. split; [reflexivity|]. unfold emhcasa.MeterID.
    rewrite (emhcasa_discover_again _ _ _ D).
    now destruct (String.eqb (emhcasa.meterID c1) EmptyString).
  - intros c' e. unfold emhcasa.DiscoverMeterID.
    destruct (emhcasa.discoverMeterIDContext c g) as [c1 [e1|]] eqn:D; [|discriminate].
    intros [= <- <-].
    assert (c1 = c) as ->.
    { revert D. unfold emhcasa.discoverMeterIDContext.
      destruct (emhcasa.derived g) as [contracts|e']; [|now intros [= <-]].
      destruct (emhcasa.scanContracts g contracts);
        [discriminate | now intros [= <-]]. }
    split; [reflexivity|]. intros E. unfold emhcasa.MeterID. rewrite E, D.
    cbn [fst]. apply String.eqb_eq in E. now rewrite E.
Qed.

Lemma theben_MeterID_facts (c : theben.Client) (g : theben.Gateway) :
  (forall id, String.eqb id EmptyString = false ->
              theben.MeterID (theben.SetMeterID c id) g
              = (theben.SetMeterID c id, id))
  /\ (forall c' id, theben.DiscoverMeterID c g = (c', Ok id) ->
                    theben.meterID c' = id /\ theben.MeterID c' g = (c', id))
  /\ (forall c' e, theben.DiscoverMeterID c g = (c', Err e) ->
                   c' = c
                   /\ (String.eqb (theben.meterID c) EmptyString = true ->
                       theben.MeterID c g = (c, EmptyString))).
Proof.
  repeat apply conj.
  - intros id H. unfold theben.MeterID, theben.SetMeterID.
    cbn [theben.meterID]. now rewrite H.
  - intros c' id. unfold theben.MeterID, theben.DiscoverMeterID.
    destruct (theben.getUsagePointID g) as [id1|e]; [|discriminate].
    intros [= <- <-]. cbn [theben.meterID theben.baseURL fst]. split; [reflexivity|].
    now destruct (String.eqb id1 EmptyString).
  - intros c' e. unfold theben.MeterID, theben.DiscoverMeterID.
    destruct (theben.getUsagePointID g) as [id1|e1]; [discriminate|].
    intros [= <- <-]. split; [reflexivity|]. intros E. rewrite E. cbn [fst].
    apply String.eqb_eq in E. now rewrite E.
Qed.

Lemma ppc_MeterID_facts (c : ppc.Client) (g : ppc.Gateway) :
  (forall id, String.eqb id EmptyString = false ->
              ppc.MeterID (ppc.SetMeterID c id) g = (ppc.SetMeterID c id, id))
  /\ (forall c' id, ppc.DiscoverMeterID c g = (c', Ok id) ->
                    ppc.meterID c' = id /\ ppc.MeterID c' g = (c', id))
  /\ (forall c' e, ppc.DiscoverMeterID c g = (c', Err e) ->
                   c' = c
                   /\ (String.eqb (ppc.meterID c) EmptyString = true ->
                       ppc.MeterID c g = (c, EmptyString))).
Proof.
  repeat apply conj.
  - intros id H. unfold ppc.MeterID, ppc.SetMeterID.
    cbn [ppc.meterID]. now rewrite H.
  - intros c' id. unfold ppc.MeterID, ppc.DiscoverMeterID.
    destruct (ppc.getMeterID g) as [id1|e]; [|discriminate].
    intros [= <- <-]. cbn [ppc.meterID ppc.baseURL fst]. split; [reflexivity|].
    now destruct (String.eqb id1 EmptyString).
  - intros c' e. unfold ppc.MeterID, ppc.DiscoverMeterID.
    destruct (ppc.getMeterID g) as [id1|e1]; [discriminate|].
    intros [= <- <-]. split; [reflexivity|]. intros E. rewrite E. cbn [fst].
    apply String.eqb_eq in E. now rewrite E.
Qed.

(** X5. The identity accessors of the three clients: [MeterID] after
    [SetMeterID] with a non-empty identity returns that identity without
    consulting the gateway; after a successful [DiscoverMeterID] the client
    holds the identity returned and [MeterID] reports it; a failed
    [DiscoverMeterID] leaves the client as it was, and [MeterID] on a
    client without identity then returns the empty string instead of the
    error. *)
Theorem MeterID_accessors :
  (forall (c : emhcasa.Client) (g : emhcasa.Gateway),
     (forall id, String.eqb id EmptyString = false ->
                 emhcasa.MeterID (emhcasa.SetMeterID c id) g
                 = (emhcasa.SetMeterID c id, id))
     /\ (forall c' id, emhcasa.DiscoverMeterID c g = (c', Ok id) ->
                       emhcasa.meterID c' = id /\ emhcasa.MeterID c' g = (c', id))
     /\ (forall c' e, emhcasa.DiscoverMeterID c g = (c', Err e) ->
                      c' = c
                      /\ (String.eqb (emhcasa.meterID c) EmptyString = true ->
                          emhcasa.MeterID c g = (c, EmptyString))))
  /\ (forall (c : theben.Client) (g : theben.Gateway),
        (forall id, String.eqb id EmptyString = false ->
                    theben.MeterID (theben.SetMeterID c id) g
                    = (theben.SetMeterID c id, id))
        /\ (forall c' id, theben.DiscoverMeterID c g = (c', Ok id) ->
                          theben.meterID c' = id /\ theben.MeterID c' g = (c', id))
        /\ (forall c' e, theben.DiscoverMeterID c g = (c', Err e) ->
                         c' = c
                         /\ (String.eqb (theben.meterID c) EmptyString = true ->
                             theben.MeterID c g = (c, EmptyString))))
  /\ (forall (c : ppc.Client) (g : ppc.Gateway),
        (forall id, String.eqb id EmptyString = false ->
                    ppc.MeterID (ppc.SetMeterID c id) g = (ppc.SetMeterID c id, id))
        /\ (forall c' id, ppc.DiscoverMeterID c g = (c', Ok id) ->
                          ppc.meterID c' = id /\ ppc.MeterID c' g = (c', id))
        /\ (forall c' e, ppc.DiscoverMeterID c g = (c', Err e) ->
                         c' = c
                         /\ (String.eqb (ppc.meterID c) EmptyString = true ->
                             ppc.MeterID c g = (c, EmptyString)))).
Proof.
  split; [exact emhcasa_MeterID_facts|].
  split; [exact theben_MeterID_facts | exact ppc_MeterID_facts].
Qed.

(** Witness of X5, at the EMH CASA gateways of the examples: a discovery
    that succeeds and one that fails. *)
Lemma MeterID_accessors_witness :
  emhcasa.MeterID (emhcasa.mkClient "https://192.168.33.2" "1EMH0012345678")
    examples.casaDiscoverable
  = (emhcasa.mkClient "https://192.168.33.2" "1EMH0012345678", "1EMH0012345678")
  /\ emhcasa.MeterID examples.casaFresh examples.casaGateway
     = (examples.casaFresh, EmptyString).
Proof.
  destruct (proj1 MeterID_accessors examples.casaFresh examples.casaDiscoverable)
    as (_ & D & _).
  destruct (proj1 MeterID_accessors examples.casaFresh examples.casaGateway)
    as (_ & _ & F).
  split.
  - apply (D (emhcasa.mkClient "https://192.168.33.2" "1EMH0012345678")
             "1EMH0012345678"). reflexivity.
  - apply (F examples.casaFresh (Errorf "no contract with sensor domains found"));
      reflexivity.
Defined.

(** ** What [convertToOBIS] reads *)

Lemma convertToOBIS_nodot (hex : string) :
  String.length hex = 12%nat -> spec.noDot hex = true ->
  emhcasa.convertToOBIS hex =
  match strconv.ParseInt (substring 4 2 hex) 16 with
  | (_, Some err) => Err err
  | (c, None) =>
      match strconv.ParseInt (substring 6 2 hex) 16 with
      | (_, Some err) => Err err
      | (d, None) =>
          match strconv.ParseInt (substring 8 2 hex) 16 with
          | (_, Some err) => Err err
          | (e, None) => Ok (fmt.d c ++ "." ++ fmt.d d ++ "." ++ fmt.d e)
          end
      end
  end.
Proof.
  intros L D. rewrite convertToOBIS_unfold. unfold spec.hexPart, strings.SplitN2.
  rewrite (cut_nodot _ D). cbn [hd]. now rewrite (proj2 (Nat.eqb_eq _ _) L).
Qed.

(** X6. [convertToOBIS] reads the six bytes at offsets 4 to 9 of the
    twelve before the first dot and nothing else: two logical names whose
    parts before the dot have twelve bytes and agree on those six get the
    same result, whatever their bytes at offsets 0 to 3 and 10 to 11 (hex
    digits or not) and whatever follows the dot. *)
Theorem convertToOBIS_reads_offsets_4_to_9 (name1 name2 : string) :
  String.length (spec.hexPart name1) = 12%nat ->
  String.length (spec.hexPart name2) = 12%nat ->
  substring 4 6 (spec.hexPart name1) = substring 4 6 (spec.hexPart name2) ->
  emhcasa.convertToOBIS name1 = emhcasa.convertToOBIS name2.
Proof.
  intros L1 L2 E. rewrite !convertToOBIS_unfold. cbv zeta.
  rewrite (proj2 (Nat.eqb_eq _ _) L1), (proj2 (Nat.eqb_eq _ _) L2). cbn [negb].
  apply length12_inv in L1, L2.
  destruct L1 as (a0 & a1 & a2 & a3 & a4 & a5 & a6 & a7 & a8 & a9 & a10 & a11 & L1).
  destruct L2 as (b0 & b1 & b2 & b3 & b4 & b5 & b6 & b7 & b8 & b9 & b10 & b11 & L2).
  rewrite L1, L2 in *. cbn in E. injection E as -> -> -> -> -> ->. reflexivity.
Qed.

(** Witness of X6: [ZZZZ100700ZZ.x] converts as [0100100700FF] does. *)
Lemma convertToOBIS_reads_offsets_4_to_9_witness :
  emhcasa.convertToOBIS "ZZZZ100700ZZ.x" = emhcasa.convertToOBIS "0100100700FF"
  /\ emhcasa.convertToOBIS "0100100700FF" = Ok "16.7.0".
Proof.
  split; [|reflexivity].
  apply convertToOBIS_reads_offsets_4_to_9; reflexivity.
Defined.

Lemma ParseInt_hex2 (n : Z) :
  0 <= n <= 255 ->
  strconv.ParseInt (props.hex2 n) 16 = (n, None)
  /\ spec.noDot (props.hex2 n) = true.
Proof.
  intros H.
  assert (G : forallb (fun k => let n := Z.of_nat k in
                 noError (strconv.ParseInt (props.hex2 n) 16)
                 && (fst (strconv.ParseInt (props.hex2 n) 16) =? n)
                 && spec.noDot (props.hex2 n)) (seq 0 256) = true)
    by (vm_compute; reflexivity).
  rewrite forallb_forall in G.
  specialize (G (Z.to_nat n)). rewrite Z2Nat.id in G by lia.
  assert (In (Z.to_nat n) (seq 0 256)) as Hin by (apply in_seq; lia).
  specialize (G Hin). cbv zeta in G.
  apply andb_prop in G as [G G3]. apply andb_prop in G as [G1 G2].
  split; [|exact G3].
  destruct (strconv.ParseInt (props.hex2 n) 16) as [v [e|]];
    unfold noError in G1; cbn [fst snd] in *; [discriminate|].
  apply Z.eqb_eq in G2. now subst.
Qed.

Lemma noDot_append (a b : string) :
  spec.noDot (a ++ b) = spec.noDot a && spec.noDot b.
Proof.
  induction a as [|c a IH]; simpl; [reflexivity|]. now rewrite IH, andb_assoc.
Qed.

Lemma length4_inv (s : string) :
  String.length s = 4%nat ->
  exists c0 c1 c2 c3, s = String c0 (String c1 (String c2 (String c3 EmptyString))).
Proof.
  intros H. do 4 (destruct s as [|? s]; [discriminate H|]).
  destruct s; [|discriminate H]. repeat eexists.
Qed.

(** X7. Conversion decodes what a hex rendering encodes: for bytes C, D
    and E (0 to 255), any four bytes before and any two bytes after (dots
    apart), the logical name made of the four bytes, the three bytes as
    two upper-case hex digits each and the two bytes converts to the code
    whose three segments are the decimal renderings of C, D and E, and
    reading the segments as decimal numbers gives C, D and E back. *)
Theorem convertToOBIS_decodes_hex (c d e : Z) (before after : string) :
  0 <= c <= 255 -> 0 <= d <= 255 -> 0 <= e <= 255 ->
  String.length before = 4%nat -> String.length after = 2%nat ->
  spec.noDot before = true -> spec.noDot after = true ->
  emhcasa.convertToOBIS (before ++ props.hex2 c ++ props.hex2 d ++ props.hex2 e ++ after)
  = Ok (fmt.d c ++ "." ++ fmt.d d ++ "." ++ fmt.d e)
  /\ map (fun s => spec.numeralValue s 0)
         (strings.Split (fmt.d c ++ "." ++ fmt.d d ++ "." ++ fmt.d e) ".")
     = [c; d; e].
Proof.
  intros Hc Hd He Lb La Db Da.
  destruct (ParseInt_hex2 c Hc) as [Pc Nc].
  destruct (ParseInt_hex2 d Hd) as [Pd Nd].
  destruct (ParseInt_hex2 e He) as [Pe Ne].
  split.
  - rewrite convertToOBIS_nodot.
    + apply length4_inv in Lb. destruct Lb as (b0 & b1 & b2 & b3 & ->).
      destruct after as [|x [|y [|? ?]]]; try discriminate La.
      set (name := _ ++ _).
      assert (S1 : substring 4 2 name = props.hex2 c) by reflexivity.
      assert (S2 : substring 6 2 name = props.hex2 d) by reflexivity.
      assert (S3 : substring 8 2 name = props.hex2 e) by reflexivity.
      now rewrite S1, S2, S3, Pc, Pd, Pe.
    + rewrite !length_append, Lb, La. reflexivity.
    + now rewrite !noDot_append, Db, Da, Nc, Nd, Ne.
  - destruct (fmt_d_byte c Hc) as (_ & C2 & C3).
    destruct (fmt_d_byte d Hd) as (_ & D2 & D3).
    destruct (fmt_d_byte e He) as (_ & E2 & E3).
    change (fmt.d c ++ "." ++ fmt.d d ++ "." ++ fmt.d e)
      with (fmt.d c ++ String "." (fmt.d d ++ String "." (fmt.d e))).
    rewrite (Split_app_nodot _ _ C2), (Split_app_nodot _ _ D2), (Split_nodot _ E2).
    simpl. now rewrite C3, D3, E3.
Qed.

(** Witness of X7, at the bytes 16, 7 and 0 between [0100] and [FF]. *)
Lemma convertToOBIS_decodes_hex_witness :
  emhcasa.convertToOBIS "0100100700FF" = Ok "16.7.0"
  /\ map (fun s => spec.numeralValue s 0) (strings.Split "16.7.0" ".") = [16; 7; 0].
Proof.
  apply (convertToOBIS_decodes_hex 16 7 0 "0100" "FF"); (lia || reflexivity).
Defined.

(** ** The Theben table and readings *)

Lemma convertOBIS_table (hexOBIS : string) :
  String.eqb (theben.convertOBIS hexOBIS) EmptyString = false ->
  In (strings.ToLower (strings.TrimSpace hexOBIS), theben.convertOBIS hexOBIS)
     theben.mappings.
Proof.
  unfold theben.convertOBIS.
  destruct (_ !! _) as [standard|] eqn:E; [intros _|discriminate].
  now apply elem_of_list_to_map_2, list_elem_of_In in E.
Qed.

(** X8. The Theben table agrees with the hex conversion of the EMH CASA
    client and with the code registry: whenever [convertOBIS] knows a
    device code, the code it returns is [1-0:] followed by what
    [convertToOBIS] computes from the trimmed, lower-cased device code,
    and that is a code of the registry; and every code of the registry is
    the result, after [1-0:], of some device code. *)
Theorem convertOBIS_agrees_with_convertToOBIS :
  (forall hexOBIS : string,
     String.eqb (theben.convertOBIS hexOBIS) EmptyString = false ->
     exists code,
       emhcasa.convertToOBIS (strings.ToLower (strings.TrimSpace hexOBIS)) = Ok code
       /\ theben.convertOBIS hexOBIS = "1-0:" ++ code
       /\ In code (map fst obis.descriptions))
  /\ (forall code : string,
        In code (map fst obis.descriptions) ->
        exists hexOBIS, theben.convertOBIS hexOBIS = "1-0:" ++ code).
Proof.
  split.
  - intros hexOBIS H. apply convertOBIS_table in H.
    generalize dependent (theben.convertOBIS hexOBIS).
    generalize (strings.ToLower (strings.TrimSpace hexOBIS)).
    intros key standard H. simpl in H.
    repeat (destruct H as [H | H];
            [injection H as <- <-;
             eexists; split; [reflexivity|split; [reflexivity|simpl; tauto]]|]).
    contradiction.
  - intros code H. simpl in H.
    repeat (destruct H as [<- | H];
            [first [ exists "0100010800ff"; reflexivity
                   | exists "0100020800ff"; reflexivity
                   | exists "0100100700ff"; reflexivity
                   | exists "0100240700ff"; reflexivity
                   | exists "0100380700ff"; reflexivity
                   | exists "01004c0700ff"; reflexivity
                   | exists "01001f0700ff"; reflexivity
                   | exists "0100330700ff"; reflexivity
                   | exists "0100470700ff"; reflexivity
                   | exists "0100200700ff"; reflexivity
                   | exists "0100340700ff"; reflexivity
                   | exists "0100480700ff"; reflexivity
                   | exists "01000e0700ff"; reflexivity ]|]).
    contradiction.
Qed.

(** Witness of X8, at a device code with blanks and upper-case digits. *)
Lemma convertOBIS_agrees_with_convertToOBIS_witness :
  exists code,
    emhcasa.convertToOBIS (strings.ToLower (strings.TrimSpace " 01001F0700FF ")) = Ok code
    /\ theben.convertOBIS " 01001F0700FF " = "1-0:" ++ code
    /\ In code (map fst obis.descriptions).
Proof.
  apply (proj1 convertOBIS_agrees_with_convertToOBIS " 01001F0700FF "). reflexivity.
Defined.

Lemma mappings_energy_scale (k : string) :
  In k (map snd theben.mappings) ->
  strings.Contains k ".8." = (theben.determineUnit k =? smgwreader.UnitWh).
Proof.
  simpl. intros H.
  repeat (destruct H as [<- | H]; [reflexivity|]). contradiction.
Qed.

(** X9. Every reading the Theben client stores comes from a raw reading
    of the gateway's channels whose device code converts to the reading's
    key and whose value scans as a number: the reading carries its key as
    code, quality good, the unit inferred from the key, and as value the
    scanned number divided by 1000 when that unit is watt-hours and by
    10000 otherwise. *)
Theorem theben_reading_invariant (rt : Runtime) (channels : list theben.channel)
    (k : string) (r : smgwreader.Reading) :
  theben.assemble rt channels !! k = Some r ->
  exists raw v,
    In raw (props.allReadings channels)
    /\ theben.convertOBIS (theben.OBIS raw) = k
    /\ Sscanf_f rt (theben.Value raw) = Ok v
    /\ smgwreader.OBIS r = k
    /\ smgwreader.Quality_ r = smgwreader.QualityGood
    /\ smgwreader.Unit_ r = theben.determineUnit k
    /\ smgwreader.Value r
       = (v / (if (smgwreader.Unit_ r =? smgwreader.UnitWh)%Z then 1000 else 10000))%float.
Proof.
  rewrite theben_assemble_flat. generalize (props.allReadings channels).
  intros rs. revert r. induction rs as [|x rs IH] using rev_ind; intros r.
  - simpl. rewrite lookup_empty. discriminate.
  - rewrite fold_left_app. simpl. unfold theben.addReading at 1. cbv zeta.
    assert (Old : fold_left (theben.addReading rt) rs ∅ !! k = Some r ->
                  exists raw v,
                    In raw (rs ++ [x])%list
                    /\ theben.convertOBIS (theben.OBIS raw) = k
                    /\ Sscanf_f rt (theben.Value raw) = Ok v
                    /\ smgwreader.OBIS r = k
                    /\ smgwreader.Quality_ r = smgwreader.QualityGood
                    /\ smgwreader.Unit_ r = theben.determineUnit k
                    /\ smgwreader.Value r
                       = (v / (if (smgwreader.Unit_ r =? smgwreader.UnitWh)%Z
                               then 1000 else 10000))%float).
    { intros H. destruct (IH r H) as (raw & v & Hin & Hrest).
      exists raw, v. split; [apply in_or_app; now left | exact Hrest]. }
    destruct (String.eqb (theben.convertOBIS (theben.OBIS x)) EmptyString) eqn:E;
      [exact Old|].
    unfold theben.parseValue.
    destruct (Sscanf_f rt (theben.Value x)) as [v|e] eqn:S; [|exact Old].
    pose proof (convertOBIS_range (theben.OBIS x)) as [R | R];
      [rewrite R in E; discriminate|].
    apply mappings_energy_scale in R.
    destruct (decide (theben.convertOBIS (theben.OBIS x) = k)) as [K | K].
    + intros H. exists x, v. split; [apply in_or_app; right; now left|].
      split; [exact K|]. split; [exact S|].
      rewrite K in *. rewrite R in H.
      destruct (theben.determineUnit k =? smgwreader.UnitWh) eqn:U;
        rewrite lookup_insert_eq in H; injection H as <-;
        cbn [smgwreader.OBIS smgwreader.Quality_ smgwreader.Unit_ smgwreader.Value];
        rewrite U; repeat split.
    + destruct (strings.Contains _ ".8."); rewrite lookup_insert_ne by exact K;
        exact Old.
Qed.

(** Witness of X9, at the gateway reporting the active power. *)
Lemma theben_reading_invariant_witness :
  exists raw v,
    In raw (props.allReadings
              [theben.mkChannel
                 [theben.mkRawReading "0100100700ff" "15000000" EmptyString]])
    /\ theben.convertOBIS (theben.OBIS raw) = "1-0:16.7.0"
    /\ Sscanf_f goruntime.go (theben.Value raw) = Ok v
    /\ smgwreader.OBIS
         (smgwreader.mkReading 1500 27 1700000000 "1-0:16.7.0" 0) = "1-0:16.7.0"
    /\ smgwreader.Quality_
         (smgwreader.mkReading 1500 27 1700000000 "1-0:16.7.0" 0)
       = smgwreader.QualityGood
    /\ smgwreader.Unit_ (smgwreader.mkReading 1500 27 1700000000 "1-0:16.7.0" 0)
       = theben.determineUnit "1-0:16.7.0"
    /\ smgwreader.Value (smgwreader.mkReading 1500 27 1700000000 "1-0:16.7.0" 0)
       = (v / (if (smgwreader.Unit_
                     (smgwreader.mkReading 1500 27 1700000000 "1-0:16.7.0" 0)
                   =? smgwreader.UnitWh)%Z then 1000 else 10000))%float.
Proof.
  apply (theben_reading_invariant goruntime.go
           [theben.mkChannel
              [theben.mkRawReading "0100100700ff" "15000000" EmptyString]]
           "1-0:16.7.0").
  vm_compute. reflexivity.
Defined.

(** ** The PPC pages in document order *)

Lemma find_app {A : Type} (p : A -> bool) (l1 l2 : list A) :
  find p (l1 ++ l2)%list = match find p l1 with
                           | Some x => Some x
                           | None => find p l2
                           end.
Proof.
  induction l1 as [|x l1 IH]; simpl; [reflexivity|]. now destruct (p x).
Qed.


(** X10. [findElementByID] returns the first node, in document order,
    that is an element with the given [id] attribute, and [nil] exactly
    when the page has no such element. *)
Theorem findElementByID_first_in_document_order (n : ppc.Node) (id : string) :
  ppc.findElementByID n id = find (props.hasID id) (props.preorder n).
Proof.
  induction n as [t d attrs children IH] using Node_induction.
  rewrite preorder_unfold. cbn [find]. unfold props.hasID at 1.
  cbn [ppc.Type_ ppc.Attr]. simpl ppc.findElementByID.
  destruct (ppc.isElement t && existsb _ attrs); [reflexivity|].
  induction IH as [|c cs Hc _ IHcs]; simpl; [reflexivity|].
  rewrite find_app, <- Hc. destruct (ppc.findElementByID c id); [reflexivity|].
  exact IHcs.
Qed.


(** X12. Every reading the PPC client extracts from a page comes from a
    table row ([tr] element) of the page: the text of the row's code cell
    is the reading's key and is not empty, the text of its value cell
    parses to the reading's value, and the reading carries the key as
    code, quality good and the unit inferred from the key. *)
Theorem ppc_reading_invariant (rt : Runtime) (doc : ppc.Node) (k : string)
    (r : smgwreader.Reading) :
  ppc.extractReadings rt doc !! k = Some r ->
  exists row, In row (props.preorder doc) /\ props.storedFromRow rt row k r.
Proof.
  unfold ppc.extractReadings.
  destruct (ppc.findElementByID doc "metervalue") as [table|] eqn:F;
    [|now rewrite lookup_empty].
  apply findElementByID_In in F.
  intros H. apply extractRow_stored in H as [H | (row & Hin & Hs)].
  - now rewrite lookup_empty in H.
  - exists row. split; [exact (preorder_trans _ _ _ F Hin) | exact Hs].
Qed.

(** Witness of X12, at the page of the examples. *)
Lemma ppc_reading_invariant_witness :
  exists row,
    In row (props.preorder examples.ppcPage)
    /\ props.storedFromRow goruntime.go row "Wirkleistung gesamt"
         (smgwreader.mkReading 1500 27 1700000000 "Wirkleistung gesamt" 0).
Proof.
  apply (ppc_reading_invariant goruntime.go examples.ppcPage "Wirkleistung gesamt").
  vm_compute. reflexivity.
Defined.

(** ** Unit inference across the clients *)

Lemma Split_nosep (sep : ascii) (a : string) :
  props.noByte sep a = true -> strings.Split a sep = [a].
Proof.
  induction a as [|c a IH]; simpl; [reflexivity|].
  destruct (Ascii.eqb c sep); simpl; [discriminate|].
  intros H. now rewrite IH.
Qed.

Lemma Split_app_nosep (sep : ascii) (a b : string) :
  props.noByte sep a = true ->
  strings.Split (a ++ String sep b) sep = a :: strings.Split b sep.
Proof.
  induction a as [|c a IH]; simpl.
  - intros _. now rewrite Ascii.eqb_refl.
  - destruct (Ascii.eqb c sep); simpl; [discriminate|].
    intros H. now rewrite IH.
Qed.

(** X13. The Theben client infers the unit from the text between the
    first and the second colon of a code exactly as the PPC client infers
    it from a bare code: for a prefix and a code without colon,
    [determineUnit] of the prefix, a colon and the code is the PPC
    [determineUnit] of the code.  A code without any colon, a bare
    [1.8.0] included, gets the default watts from the Theben client. *)
Theorem theben_determineUnit_of_prefixed (medium code : string) :
  props.noByte ":" medium = true -> props.noByte ":" code = true ->
  theben.determineUnit (medium ++ String ":" code) = ppc.determineUnit code
  /\ theben.determineUnit code = smgwreader.UnitWatt.
Proof.
  intros Hm Hc. unfold theben.determineUnit.
  rewrite (Split_app_nosep _ _ _ Hm), !(Split_nosep _ _ Hc). split; reflexivity.
Qed.

(** Witness of X13, at the prefix [1-0] and the code [1.8.0]. *)
Lemma theben_determineUnit_of_prefixed_witness :
  theben.determineUnit "1-0:1.8.0" = ppc.determineUnit "1.8.0"
  /\ theben.determineUnit "1.8.0" = smgwreader.UnitWatt
  /\ ppc.determineUnit "1.8.0" = smgwreader.UnitWh.
Proof.
  destruct (theben_determineUnit_of_prefixed "1-0" "1.8.0" eq_refl eq_refl) as [A B].
  split; [exact A|]. split; [exact B | reflexivity].
Defined.

(** ** Constructing clients *)

Lemma prefix_http (scheme uri : string) :
  scheme = "http" \/ scheme = "https" ->
  (strings.HasPrefix (scheme ++ "://" ++ uri) "http://"
   || strings.HasPrefix (scheme ++ "://" ++ uri) "https://") = true.
Proof.
  unfold strings.HasPrefix. intros [-> | ->]; simpl;
    destruct uri; reflexivity.
Qed.

Lemma defaultScheme_scheme (uri scheme : string) :
  scheme = "http" \/ scheme = "https" ->
  props.hasScheme (emhcasa.defaultScheme uri scheme) = true.
Proof.
  intros Hs. unfold props.hasScheme, emhcasa.defaultScheme.
  destruct (strings.HasPrefix uri "http://") eqn:E1;
    destruct (strings.HasPrefix uri "https://") eqn:E2; cbn [negb andb];
    rewrite ?E1, ?E2; try reflexivity.
  now apply prefix_http.
Qed.

Lemma defaultScheme_fixed (uri scheme : string) :
  props.hasScheme uri = true -> emhcasa.defaultScheme uri scheme = uri.
Proof.
  unfold props.hasScheme, emhcasa.defaultScheme. intros H.
  now rewrite <- negb_orb, H.
Qed.

(** X14. [defaultScheme] with the scheme [http] or [https] always gives a
    URI that starts with [http://] or [https://], leaves a URI that
    already does so as it is, and applying it again changes nothing. *)
Theorem defaultScheme_idempotent (uri scheme : string) :
  scheme = "http" \/ scheme = "https" ->
  props.hasScheme (emhcasa.defaultScheme uri scheme) = true
  /\ emhcasa.defaultScheme (emhcasa.defaultScheme uri scheme) scheme
     = emhcasa.defaultScheme uri scheme
  /\ (props.hasScheme uri = true -> emhcasa.defaultScheme uri scheme = uri).
Proof.
  intros Hs. split; [now apply defaultScheme_scheme|].
  split; [|apply defaultScheme_fixed].
  apply defaultScheme_fixed. now apply defaultScheme_scheme.
Qed.

(** Witness of X14, at the address of the package's tests. *)
Lemma defaultScheme_idempotent_witness :
  props.hasScheme (emhcasa.defaultScheme "192.168.33.2" "https") = true
  /\ emhcasa.defaultScheme (emhcasa.defaultScheme "192.168.33.2" "https") "https"
     = emhcasa.defaultScheme "192.168.33.2" "https"
  /\ (props.hasScheme "192.168.33.2" = true ->
      emhcasa.defaultScheme "192.168.33.2" "https" = "192.168.33.2").
Proof.
  apply (defaultScheme_idempotent "192.168.33.2" "https"). right. reflexivity.
Defined.

(** X15. What the constructors check.  The EMH CASA constructor looks the
    gateway up before it checks the credentials: without a URI, a failed
    lookup is the error, wrapped twice, whatever the credentials; a
    successful one gives the host with [https://] in front.  With a URI the
    lookup is not consulted.  The Theben and PPC constructors check the
    credentials before the base URL and never set a meter identity.  Every
    client that is constructed has non-empty credentials and a URI with a
    scheme, the given one or [https]. *)
Theorem NewClient_checks :
  (forall (mdns : result string) (uri user password meterID : string)
          (c : emhcasa.Client),
     emhcasa.NewClient mdns uri user password meterID = Ok c ->
     String.eqb user EmptyString = false
     /\ String.eqb password EmptyString = false
     /\ emhcasa.meterID c = meterID
     /\ props.hasScheme (emhcasa.uri c) = true
     /\ (if String.eqb uri EmptyString
         then exists host, mdns = Ok host /\ emhcasa.uri c = "https://" ++ host
         else emhcasa.uri c = emhcasa.defaultScheme uri "https"))
  /\ (forall (e : error) (user password meterID : string),
        emhcasa.NewClient (Err e) EmptyString user password meterID
        = Err (Wrapf "failed to discover gateway"
                 (Wrapf "failed to discover gateway" e)))
  /\ (forall (mdns mdns' : result string) (uri user password meterID : string),
        String.eqb uri EmptyString = false ->
        emhcasa.NewClient mdns uri user password meterID
        = emhcasa.NewClient mdns' uri user password meterID)
  /\ (forall (baseURL username password : string) (c : theben.Client),
        theben.NewClient baseURL username password = Ok c ->
        String.eqb username EmptyString = false
        /\ String.eqb password EmptyString = false
        /\ String.eqb baseURL EmptyString = false
        /\ theben.meterID c = EmptyString
        /\ props.hasScheme (theben.baseURL c) = true
        /\ theben.baseURL c = emhcasa.defaultScheme baseURL "https")
  /\ (forall (baseURL username password : string) (c : ppc.Client),
        ppc.NewClient baseURL username password = Ok c ->
        String.eqb username EmptyString = false
        /\ String.eqb password EmptyString = false
        /\ String.eqb baseURL EmptyString = false
        /\ ppc.meterID c = EmptyString
        /\ props.hasScheme (ppc.baseURL c) = true
        /\ ppc.baseURL c = emhcasa.defaultScheme baseURL "https")
  /\ (forall baseURL username password : string,
        String.eqb username EmptyString || String.eqb password EmptyString = true ->
        theben.NewClient baseURL username password
        = Err (Errorf "credentials are required")
        /\ ppc.NewClient baseURL username password
           = Err (Errorf "credentials are required")).
Proof.
  assert (S : forall uri, props.hasScheme (emhcasa.defaultScheme uri "https") = true).
  { intros uri. apply defaultScheme_scheme. now right. }
  repeat split.
  - revert H. unfold emhcasa.NewClient.
    destruct (String.eqb uri EmptyString);
      [destruct mdns as [host|e]; cbn [emhcasa.DiscoverGatewayURI]; [|discriminate]|];
      destruct (String.eqb user EmptyString); [discriminate| |discriminate|];
      reflexivity.
  - revert H. unfold emhcasa.NewClient.
    destruct (String.eqb uri EmptyString);
      [destruct mdns as [host|e]; cbn [emhcasa.DiscoverGatewayURI]; [|discriminate]|];
      destruct (String.eqb user EmptyString); try discriminate;
      destruct (String.eqb password EmptyString); try discriminate; reflexivity.
  - revert H. unfold emhcasa.NewClient.
    destruct (String.eqb uri EmptyString);
      [destruct mdns as [host|e]; cbn [emhcasa.DiscoverGatewayURI]; [|discriminate]|];
      destruct (String.eqb user EmptyString || String.eqb password EmptyString);
      try discriminate; now intros [= <-].
  - revert H. unfold emhcasa.NewClient.
    destruct (String.eqb uri EmptyString);
      [destruct mdns as [host|e]; cbn [emhcasa.DiscoverGatewayURI]; [|discriminate]|];
      destruct (String.eqb user EmptyString || String.eqb password EmptyString);
      try discriminate; intros [= <-]; cbn [emhcasa.uri]; apply S.
  - revert H. unfold emhcasa.NewClient.
    destruct (String.eqb uri EmptyString);
      [destruct mdns as [host|e]; cbn [emhcasa.DiscoverGatewayURI]; [|discriminate]|];
      destruct (String.eqb user EmptyString || String.eqb password EmptyString);
      try discriminate; intros [= <-]; cbn [emhcasa.uri]; [|reflexivity].
    exists host. split; [reflexivity|].
    apply defaultScheme_fixed.
    unfold props.hasScheme, strings.HasPrefix. simpl. now destruct host.
  - intros mdns mdns' uri user password meterID E.
    unfold emhcasa.NewClient. now rewrite E.
  - revert H. unfold theben.NewClient.
    destruct (String.eqb username EmptyString); [discriminate | reflexivity].
  - revert H. unfold theben.NewClient.
    destruct (String.eqb username EmptyString); [discriminate|].
    destruct (String.eqb password EmptyString); [discriminate | reflexivity].
  - revert H. unfold theben.NewClient.
    destruct (String.eqb username EmptyString || String.eqb password EmptyString);
      [discriminate|].
    destruct (String.eqb baseURL EmptyString); [discriminate | reflexivity].
  - revert H. unfold theben.NewClient.
    destruct (String.eqb username EmptyString || String.eqb password EmptyString);
      [discriminate|].
    destruct (String.eqb baseURL EmptyString); [discriminate|]. now intros [= <-].
  - revert H. unfold theben.NewClient.
    destruct (String.eqb username EmptyString || String.eqb password EmptyString);
      [discriminate|].
    destruct (String.eqb baseURL EmptyString); [discriminate|].
    intros [= <-]. cbn [theben.baseURL]. apply (S baseURL).
  - revert H. unfold theben.NewClient.
    destruct (String.eqb username EmptyString || String.eqb password EmptyString);
      [discriminate|].
    destruct (String.eqb baseURL EmptyString); [discriminate|]. now intros [= <-].
  - revert H. unfold ppc.NewClient.
    destruct (String.eqb username EmptyString); [discriminate | reflexivity].
  - revert H. unfold ppc.NewClient.
    destruct (String.eqb username EmptyString); [discriminate|].
    destruct (String.eqb password EmptyString); [discriminate | reflexivity].
  - revert H. unfold ppc.NewClient.
    destruct (String.eqb username EmptyString || String.eqb password EmptyString);
      [discriminate|].
    destruct (String.eqb baseURL EmptyString); [discriminate | reflexivity].
  - revert H. unfold ppc.NewClient.
    destruct (String.eqb username EmptyString || String.eqb password EmptyString);
      [discriminate|].
    destruct (String.eqb baseURL EmptyString); [discriminate|]. now intros [= <-].
  - revert H. unfold ppc.NewClient.
    destruct (String.eqb username EmptyString || String.eqb password EmptyString);
      [discriminate|].
    destruct (String.eqb baseURL EmptyString); [discriminate|].
    intros [= <-]. cbn [ppc.baseURL]. apply (S baseURL).
  - revert H. unfold ppc.NewClient.
    destruct (String.eqb username EmptyString || String.eqb password EmptyString);
      [discriminate|].
    destruct (String.eqb baseURL EmptyString); [discriminate|]. now intros [= <-].
  - unfold theben.NewClient. now rewrite H.
  - unfold ppc.NewClient. now rewrite H.
Qed.

(** Witness of X15: the three constructors at the address of the tests,
    and the EMH CASA constructor without a URI. *)
Lemma NewClient_checks_witness :
  (emhcasa.NewClient (Err (Transport "no gateway")) "192.168.33.2" "user" "secret"
     "1EMH0012345678"
   = Ok (emhcasa.mkClient "https://192.168.33.2" "1EMH0012345678")
   /\ props.hasScheme "https://192.168.33.2" = true)
  /\ emhcasa.NewClientDiscover (Ok "[fe80::1%eth0]") "user" "secret"
     = Ok (emhcasa.mkClient "https://[fe80::1%eth0]" EmptyString)
  /\ emhcasa.NewClient (Err (Transport "no gateway")) EmptyString EmptyString
       EmptyString EmptyString
     = Err (Wrapf "failed to discover gateway"
              (Wrapf "failed to discover gateway" (Transport "no gateway")))
  /\ theben.NewClient "http://conexa.local" "user" "secret"
     = Ok (theben.mkClient "http://conexa.local" EmptyString)
  /\ ppc.NewClient EmptyString EmptyString "secret"
     = Err (Errorf "credentials are required").
Proof.
  destruct NewClient_checks as (A & B & _ & _ & _ & D).
  split; [split; [reflexivity|]|].
  - exact (proj1 (proj2 (proj2 (proj2
      (A (Err (Transport "no gateway")) "192.168.33.2" "user" "secret"
         "1EMH0012345678" _ eq_refl))))).
  - split; [reflexivity|]. split; [apply B|]. split; [reflexivity|].
    exact (proj2 (D EmptyString EmptyString "secret" eq_refl)).
Defined.

(** ** The registry and the clients' unit inference *)

(** X16. The registry agrees with the clients.  For every code the
    registry describes, [Description] answers that description; the
    description ends with the name, in brackets, of the unit the PPC
    client infers for the code, which is also the unit the Theben client
    infers for the code behind its [1-0:] prefix; and the code has the
    form the EMH CASA conversion produces: three decimal numbers
    separated by two dots. *)
Theorem registry_units_agree (code desc : string) :
  In (code, desc) obis.descriptions ->
  obis.Description code = desc
  /\ props.hasSuffix desc
       ("(" ++ smgwreader.Unit_String (ppc.determineUnit code) ++ ")") = true
  /\ theben.determineUnit ("1-0:" ++ code) = ppc.determineUnit code
  /\ emhcasa.isValidOBIS code = true.
Proof.
  unfold obis.descriptions. intros H.
  repeat (destruct H as [[= <- <-] | H];
          [vm_compute; repeat split; reflexivity|]).
  destruct H.
Qed.

(** Witness of X16, at the code of the active power. *)
Lemma registry_units_agree_witness :
  obis.Description obis.PowerActive = "Current active power (W)"
  /\ props.hasSuffix "Current active power (W)"
       ("(" ++ smgwreader.Unit_String (ppc.determineUnit obis.PowerActive) ++ ")")
     = true
  /\ theben.determineUnit ("1-0:" ++ obis.PowerActive)
     = ppc.determineUnit obis.PowerActive
  /\ emhcasa.isValidOBIS obis.PowerActive = true.
Proof.
  apply (registry_units_agree obis.PowerActive "Current active power (W)").
  unfold obis.descriptions. simpl. tauto.
Defined.

(** ** When the EMH CASA client reports no valid values *)

Lemma size_zero_criterion {A : Type} (m : gmap string A) (b : bool) :
  (forall k, is_Some (m !! k) -> b = true) ->
  (b = true -> exists k, is_Some (m !! k)) ->
  Nat.eqb (size m) 0 = negb b.
Proof.
  intros H1 H2. destruct b; simpl.
  - destruct (H2 eq_refl) as [k [x Hk]]. apply Nat.eqb_neq. intros Hs.
    apply map_size_empty_iff in Hs. rewrite Hs, lookup_empty in Hk. discriminate.
  - apply Nat.eqb_eq, map_size_empty_iff, map_empty. intros k.
    destruct (m !! k) as [x|] eqn:E; [|reflexivity].
    discriminate (H1 k (ex_intro _ x E)).
Qed.

Lemma addValue_lookup (rt : Runtime) (m : gmap string float)
    (item : emhcasa.MeterValue) (k : string) :
  is_Some (emhcasa_v01.addValue rt m item !! k) <->
  is_Some (m !! k)
  \/ (emhcasa.convertToOBIS (emhcasa.LogicalName item) = Ok k
      /\ props.storable rt item = true).
Proof.
  unfold emhcasa_v01.addValue, props.storable, props.converts, noError,
    props.knownUnit.
  destruct (emhcasa.convertToOBIS (emhcasa.LogicalName item)) as [obis|e];
    cbn [isOk andb existsb];
    [|split; [intros H; left; exact H | intros [H | [H _]]; [exact H | discriminate]]].
  destruct (ParseFloat rt (emhcasa.Value item)) as [raw [e|]]; cbn [snd];
    [split; [intros H; left; exact H | intros [H | [_ H]]; [exact H | discriminate]]|].
  assert (I : forall v : float,
            is_Some (<[obis := v]> m !! k) <->
            is_Some (m !! k) \/ ((Ok obis : result string) = Ok k /\ true = true)).
  { intros v. rewrite lookup_insert_is_Some. split.
    - intros [-> | [_ H]]; [right; split; reflexivity | left; exact H].
    - intros [H | [H _]].
      + destruct (decide (obis = k)); [left | right]; auto.
      + left. congruence. }
  destruct (emhcasa.Unit item =? 27); [apply I|].
  destruct (emhcasa.Unit item =? 30); [apply I|].
  destruct (emhcasa.Unit item =? 33); [apply I|].
  destruct (emhcasa.Unit item =? 35); [apply I|].
  destruct (emhcasa.Unit item =? 44); [apply I|].
  cbn [orb]. split; [intros H; left; exact H | intros [H | [_ H]]; [exact H | discriminate]].
Qed.

Lemma fold_addValue_lookup (rt : Runtime) (values : list emhcasa.MeterValue)
    (m : gmap string float) (k : string) :
  is_Some (fold_left (emhcasa_v01.addValue rt) values m !! k) <->
  is_Some (m !! k)
  \/ exists item, In item values
                  /\ emhcasa.convertToOBIS (emhcasa.LogicalName item) = Ok k
                  /\ props.storable rt item = true.
Proof.
  revert m. induction values as [|v values IH]; intros m; simpl.
  - split; [intros H; left; exact H | intros [H | (item & [] & _)]; exact H].
  - rewrite IH, addValue_lookup. split.
    + intros [[H | H] | (item & Hin & H)].
      * left; exact H.
      * right; exists v; tauto.
      * right; exists item; tauto.
    + intros [H | (item & [<- | Hin] & H)].
      * left; left; exact H.
      * left; right; exact H.
      * right; exists item; tauto.
Qed.

Lemma size_assemble (rt : Runtime) (values : list emhcasa.MeterValue) :
  Nat.eqb (size (emhcasa.assemble rt values)) 0
  = negb (existsb props.converts values).
Proof.
  apply size_zero_criterion.
  - intros k H. apply emhcasa_assemble_keys in H as (item & Hin & H).
    apply existsb_exists. exists item. split; [exact Hin|].
    unfold props.converts. now rewrite H.
  - intros H. apply existsb_exists in H as (item & Hin & H).
    unfold props.converts in H.
    destruct (emhcasa.convertToOBIS (emhcasa.LogicalName item)) as [k|e] eqn:E;
      [|discriminate].
    exists k. apply emhcasa_assemble_keys. exists item. auto.
Qed.

Lemma size_fold_addValue (rt : Runtime) (values : list emhcasa.MeterValue) :
  Nat.eqb (size (fold_left (emhcasa_v01.addValue rt) values ∅)) 0
  = negb (existsb (props.storable rt) values).
Proof.
  apply size_zero_criterion.
  - intros k H. apply fold_addValue_lookup in H as [[x H] | (item & Hin & _ & H)].
    + rewrite lookup_empty in H. discriminate.
    + apply existsb_exists. exists item. auto.
  - intros H. apply existsb_exists in H as (item & Hin & H).
    assert (C : props.converts item = true).
    { unfold props.storable in H. now destruct (props.converts item). }
    unfold props.converts in C.
    destruct (emhcasa.convertToOBIS (emhcasa.LogicalName item)) as [k|e] eqn:E;
      [|discriminate].
    exists k. apply fold_addValue_lookup. right. exists item. auto.
Qed.

(** X17. When the EMH CASA client has readings to give.  With the meter
    identity set and an answer from the reading endpoint, [GetReadings]
    succeeds exactly when the logical name of at least one entry converts,
    whatever the entries' value strings and unit tags; otherwise its error
    is [no valid meter values found].  [GetMeterValues] of release 0.1.0
    succeeded exactly when at least one entry could be stored: its name
    converts, its value parses and its unit tag is known; otherwise it gave
    the same error. *)
Theorem GetReadings_succeeds_iff_some_entry_converts (rt : Runtime)
    (c : emhcasa.Client) (g : emhcasa.Gateway) (reading : emhcasa.MeterReading) :
  String.eqb (emhcasa.meterID c) EmptyString = false ->
  emhcasa.origin g (emhcasa.meterID c) = Ok reading ->
  isOk (snd (emhcasa.GetReadings rt c g))
  = existsb props.converts (emhcasa.Values reading)
  /\ isOk (emhcasa_v01.GetMeterValues rt c g)
     = existsb (props.storable rt) (emhcasa.Values reading)
  /\ (existsb props.converts (emhcasa.Values reading) = false ->
      snd (emhcasa.GetReadings rt c g) = Err (Errorf "no valid meter values found"))
  /\ (existsb (props.storable rt) (emhcasa.Values reading) = false ->
      emhcasa_v01.GetMeterValues rt c g = Err (Errorf "no valid meter values found")).
Proof.
  intros E Ho. unfold emhcasa.GetReadings, emhcasa_v01.GetMeterValues.
  rewrite E, Ho. cbv zeta. rewrite size_assemble, size_fold_addValue.
  destruct (existsb props.converts (emhcasa.Values reading));
    destruct (existsb (props.storable rt) (emhcasa.Values reading));
    cbn [negb snd isOk]; repeat split; intros; try reflexivity; discriminate.
Qed.

(** Witness of X17: a gateway whose only entry has the value [abc].  The
    entry converts but cannot be stored, so [GetReadings] succeeds where
    [GetMeterValues] of release 0.1.0 reported no valid values. *)
Lemma GetReadings_succeeds_iff_some_entry_converts_witness :
  isOk (snd (emhcasa.GetReadings goruntime.go examples.casaClient
               examples.casaUnparsable)) = true
  /\ emhcasa_v01.GetMeterValues goruntime.go examples.casaClient
       examples.casaUnparsable
     = Err (Errorf "no valid meter values found").
Proof.
  destruct (GetReadings_succeeds_iff_some_entry_converts goruntime.go
              examples.casaClient examples.casaUnparsable
              (emhcasa.mkMeterReading
                 [emhcasa.mkMeterValue "abc" 30 0 "0100010800FF"])
              eq_refl eq_refl) as (A & _ & _ & D).
  split; [rewrite A; reflexivity | apply D; vm_compute; reflexivity].
Defined.

(** ** The validator of the integration tests *)

Lemma allDigits_noDot (s : string) :
  spec.allDigits s = true -> spec.noDot s = true.
Proof.
  induction s as [|c s IH]; simpl; [reflexivity|].
  intros H. apply andb_prop in H as [Hc Hs]. rewrite (IH Hs), andb_true_r.
  destruct (Ascii.eqb c ".") eqn:E; [|reflexivity].
  apply Ascii.eqb_eq in E. subst c. discriminate Hc.
Qed.

Lemma isNumeral_noDot (s : string) :
  spec.isNumeral s = true -> spec.noDot s = true.
Proof.
  unfold spec.isNumeral. intros H. apply andb_prop in H as [_ H].
  now apply allDigits_noDot.
Qed.

(** X18. What the tests' [isValidOBIS] accepts.  Its loop accepts a string
    exactly when the string is three non-empty runs of decimal digits
    separated by two dots.  Every code [convertToOBIS] produces from a
    logical name with hex digits at offsets 4 to 9 is accepted. *)
Theorem isValidOBIS_accepts_three_numbers :
  (forall s : string,
     emhcasa.isValidOBIS s = true <->
     exists c d e : string,
       s = c ++ "." ++ d ++ "." ++ e
       /\ spec.isNumeral c = true /\ spec.isNumeral d = true
       /\ spec.isNumeral e = true)
  /\ (forall logicalName : string,
        String.length (spec.hexPart logicalName) = 12%nat ->
        spec.pairsAreHex logicalName = true ->
        exists code, emhcasa.convertToOBIS logicalName = Ok code
                     /\ emhcasa.isValidOBIS code = true).
Proof.
  split.
  - intros s. rewrite isValidOBIS_isStandardCode. unfold spec.isStandardCode. split.
    + intros H. pose proof (Split_join s) as J.
      destruct (strings.Split s ".") as [|c [|d [|e [|? ?]]]]; try discriminate H.
      apply andb_prop in H as [H He]. apply andb_prop in H as [Hc Hd].
      exists c, d, e. simpl in J. auto.
    + intros (c & d & e & -> & Hc & Hd & He).
      change (c ++ "." ++ d ++ "." ++ e)
        with (c ++ String "." (d ++ String "." e)).
      rewrite (Split_app_nodot _ _ (isNumeral_noDot _ Hc)),
        (Split_app_nodot _ _ (isNumeral_noDot _ Hd)),
        (Split_nodot _ (isNumeral_noDot _ He)).
      now rewrite Hc, Hd, He.
  - intros logicalName L H.
    destruct (convertToOBIS_hex logicalName L H) as (code & E & B).
    exists code. split; [exact E|].
    rewrite isValidOBIS_isStandardCode. now apply isByteCode_isStandardCode.
Qed.

(** Witness of X18, at the logical name of the active power. *)
Lemma isValidOBIS_accepts_three_numbers_witness :
  emhcasa.isValidOBIS "16.7.0" = true
  /\ exists code, emhcasa.convertToOBIS "0100100700FF" = Ok code
                  /\ emhcasa.isValidOBIS code = true.
Proof.
  destruct isValidOBIS_accepts_three_numbers as [A B]. split.
  - apply A. exists "16", "7", "0". repeat split; reflexivity.
  - apply (B "0100100700FF"); reflexivity.
Defined.
